(** * File upload service with virus scan: a shallow embedding

    The development follows the Python sources of the service:
    - [app/config.py]        : [Settings] and the [settings] instance;
    - [app/models.py]        : [ScanStatus], [VirusScanResult];
    - [app/utils/helpers.py] : file-name helpers and the download token;
    - [app/storage/*.py]     : the three storage backends;
    - [app/tasks/virus_scan.py] : the ClamAV client and the scan task;
    - [app/main.py]          : the metadata store and the HTTP operations.

    External services (Redis, the file system, S3, Azure Blob storage, the
    ClamAV daemon, Celery, the JOSE library) are modelled as explicit state
    that every operation threads through; Python exceptions are values of
    [py_result]. *)

From Stdlib Require Import ZArith String Ascii List Bool Lia.
From stdpp Require Import base option gmap strings list stringmap.

Local Open Scope string_scope.
Local Open Scope Z_scope.

(** ** Python values shared by all modules *)

Definition bytes := list Byte.byte.

Inductive exn_class :=
  | Exception
  | FileExistsError
  | ConnectionError
  | IndexError
  | AttributeError
  | ValueError
  | JWTError
  | ClientError
  | BotoCoreError
  | ResourceExistsError
  | ResourceNotFoundError
  | AzureError.

Record exn := Exn { exn_cls : exn_class; exn_msg : string }.

Inductive py_result (A : Type) :=
  | Raises (e : exn)
  | Returns (a : A).
Arguments Raises {A} e.
Arguments Returns {A} a.

Global Instance exn_class_eq_dec : EqDecision exn_class.
Proof. solve_decision. Defined.

(** ** Strings: [str.lower], [pathlib.Path(...).suffix] *)

Module Str.

Definition lower_ascii (c : ascii) : ascii :=
  let n := nat_of_ascii c in
  if ((65 <=? n) && (n <=? 90))%nat then ascii_of_nat (n + 32) else c.

Fixpoint lower (s : string) : string :=
  match s with
  | EmptyString => EmptyString
  | String c r => String (lower_ascii c) (lower r)
  end.

Fixpoint drop (n : nat) (s : string) : string :=
  match n, s with
  | O, _ => s
  | S _, EmptyString => EmptyString
  | S k, String _ r => drop k r
  end.

(** [s.split(sep)] for a one-character separator. *)
Fixpoint split (sep : ascii) (s : string) : list string :=
  match s with
  | EmptyString => [EmptyString]
  | String c r =>
      if Ascii.eqb c sep then EmptyString :: split sep r
      else match split sep r with
           | [] => [String c EmptyString]
           | h :: t => String c h :: t
           end
  end.

(** [s.rfind(".")], with [None] for Python's [-1]. *)
Fixpoint rfind_dot (s : string) : option nat :=
  match s with
  | EmptyString => None
  | String c r =>
      match rfind_dot r with
      | Some i => Some (S i)
      | None => if Ascii.eqb c "." then Some O else None
      end
  end.

Fixpoint mem (c : ascii) (s : string) : bool :=
  match s with
  | EmptyString => false
  | String d r => Ascii.eqb d c || mem c r
  end.

End Str.

Module Path.

(** The parts of a POSIX path: empty and ["."] components are dropped. *)
Definition keep_part (p : string) : bool :=
  negb (String.eqb p "") && negb (String.eqb p ".").

Definition parts (p : string) : list string :=
  List.filter keep_part (Str.split "/" p).

(** [PurePath.name]: the final component, [""] when there is none. *)
Definition name (p : string) : string := List.last (parts p) "".

(** [PurePath.suffix]:
    [i = name.rfind('.'); name[i:] if 0 < i < len(name) - 1 else ''].  *)
Definition suffix (p : string) : string :=
  let n := name p in
  match Str.rfind_dot n with
  | Some i =>
      if ((0 <? i) && (S i <? String.length n))%nat then Str.drop i n else ""
  | None => ""
  end.

Definition is_absolute (p : string) : bool :=
  match p with
  | String c _ => Ascii.eqb c "/"
  | EmptyString => false
  end.

(** [str(Path(p))]: the parts joined by single slashes. *)
Definition render (p : string) : string :=
  let body := String.concat "/" (parts p) in
  if is_absolute p then "/" ++ body
  else if String.eqb body "" then "." else body.

(** [str(Path(dir) / leaf)]: an absolute [leaf] replaces [dir]. *)
Definition join (dir leaf : string) : string :=
  if is_absolute leaf || String.eqb dir "" then render leaf
  else render (dir ++ "/" ++ leaf).

End Path.

(** ** app/config.py *)

Record Settings := {
  storage_type : string;
  local_storage_path : string;
  max_file_size : Z;
  allowed_extensions : gset string;
  secret_key : string;
  download_link_expire_hours : Z;
  virus_scan_timeout : Z;
  (* read by [S3Storage.__init__]; config.py does not declare it *)
  s3_bucket_name : string;
  azure_container_name : string
}.

Definition settings : Settings := {|
  storage_type := "local";
  local_storage_path := "./uploads";
  max_file_size := 100 * 1024 * 1024;
  allowed_extensions :=
    {[ ".txt"; ".pdf"; ".doc"; ".docx"; ".xls"; ".xlsx";
       ".ppt"; ".pptx"; ".jpg"; ".jpeg"; ".png"; ".gif";
       ".zip"; ".rar"; ".tar"; ".gz" ]};
  secret_key := "your-secret-key-change-this-in-production";
  download_link_expire_hours := 24;
  virus_scan_timeout := 300;
  s3_bucket_name := "file-upload-service";
  azure_container_name := "file-upload-service"
|}.

(** ** app/utils/helpers.py: file names *)

Definition get_file_extension (filename : string) : string :=
  Str.lower (Path.suffix filename).

Definition is_allowed_file (cfg : Settings) (filename : string) : bool :=
  bool_decide (get_file_extension filename ∈ allowed_extensions cfg).

Definition create_secure_filename (original_filename file_id : string) : string :=
  file_id ++ get_file_extension original_filename.

(** ** app/models.py *)

Inductive ScanStatus := PENDING | SCANNING | CLEAN | INFECTED | ERROR.

Global Instance ScanStatus_eq_dec : EqDecision ScanStatus.
Proof. solve_decision. Defined.

(** [status.value] *)
Definition ScanStatus_value (s : ScanStatus) : string :=
  match s with
  | PENDING => "pending"
  | SCANNING => "scanning"
  | CLEAN => "clean"
  | INFECTED => "infected"
  | ERROR => "error"
  end.

(** [ScanStatus(value)]: raises [ValueError] on any other string. *)
Definition ScanStatus_of_value (v : string) : py_result ScanStatus :=
  if String.eqb v "pending" then Returns PENDING
  else if String.eqb v "scanning" then Returns SCANNING
  else if String.eqb v "clean" then Returns CLEAN
  else if String.eqb v "infected" then Returns INFECTED
  else if String.eqb v "error" then Returns ERROR
  else Raises (Exn ValueError (v ++ " is not a valid ScanStatus")).

Definition terminal (s : ScanStatus) : bool :=
  match s with
  | CLEAN | INFECTED | ERROR => true
  | PENDING | SCANNING => false
  end.

Record VirusScanResult := {
  vr_file_id : string;
  vr_status : ScanStatus;
  vr_scan_timestamp : Z;
  vr_scan_duration : Z;
  vr_engine_version : option string;
  vr_threats_found : option (list string);
  vr_error_message : option string
}.

(** ** The JOSE library, as far as helpers.py drives it

    A compact JWS is a header naming the algorithm, a claims object and a
    signature over both; anything that does not decode to these three
    segments is [Malformed].  The keyed MAC is a parameter of the whole
    development.  Time is counted in whole seconds, the resolution of the
    [exp] claim.  Of the registered claims only [exp], the one the service
    writes, is validated here; the library's other validations raise the
    same [JWTError]. *)

Module Jose.

Inductive jvalue := JNull | JStr (s : string) | JNum (n : Z).

Global Instance jvalue_eq_dec : EqDecision jvalue.
Proof. solve_decision. Defined.

(** [claims.get(k)]: Python's [None] is [JNull]. *)
Definition get (k : string) (c : gmap string jvalue) : jvalue :=
  default JNull (c !! k).

Inductive token :=
  | Malformed (raw : string)
  | Compact (alg : string) (payload : gmap string jvalue) (signature : string).

(** [except JWTError]; the library's [ExpiredSignatureError] and
    [JWTClaimsError] are subclasses of it. *)
Definition is_JWTError (e : exn) : bool := bool_decide (exn_cls e = JWTError).

Section Mac.
Variable mac : string -> string -> gmap string jvalue -> string.

(** [jwt.encode(claims, key, algorithm)] *)
Definition encode (c : gmap string jvalue) (key alg : string) : token :=
  Compact alg c (mac key alg c).

(** [_validate_exp]: the claim must be a number and not lie in the past. *)
Definition validate_exp (now : Z) (c : gmap string jvalue) : py_result unit :=
  match c !! "exp" with
  | None => Returns tt
  | Some (JNum e) =>
      if e <? now then Raises (Exn JWTError "Signature has expired.")
      else Returns tt
  | Some _ => Raises (Exn JWTError "Expiration Time claim (exp) must be an integer.")
  end.

(** [jwt.decode(token, key, algorithms)] read at time [now]. *)
Definition decode (now : Z) (t : token) (key : string) (algorithms : list string)
  : py_result (gmap string jvalue) :=
  match t with
  | Malformed _ => Raises (Exn JWTError "Not enough segments")
  | Compact alg c sig =>
      if negb (bool_decide (alg ∈ algorithms))
      then Raises (Exn JWTError "The specified alg value is not allowed")
      else if negb (String.eqb sig (mac key alg c))
      then Raises (Exn JWTError "Signature verification failed.")
      else match validate_exp now c with
           | Raises e => Raises e
           | Returns _ => Returns c
           end
  end.
End Mac.

End Jose.

(** ** app/utils/helpers.py: the download token *)

Section Token.
Variable mac : string -> string -> gmap string Jose.jvalue -> string.

(** [expires_delta] is [None] or a [timedelta] in seconds; a zero
    [timedelta] is falsy in Python, so [if expires_delta:] takes the
    [else] branch for it. *)
Definition generate_download_token (cfg : Settings) (utcnow : Z)
    (file_id : string) (expires_delta : option Z) : Jose.token :=
  let expire :=
    match expires_delta with
    | Some d => if d =? 0 then utcnow + download_link_expire_hours cfg * 3600
                else utcnow + d
    | None => utcnow + download_link_expire_hours cfg * 3600
    end in
  let to_encode : gmap string Jose.jvalue :=
    <["file_id" := Jose.JStr file_id]>
      (<["exp" := Jose.JNum expire]>
         (<["type" := Jose.JStr "download"]> ∅)) in
  Jose.encode mac to_encode (secret_key cfg) "HS256".

(** The result is [Returns None] for "invalid"; an exception other than
    [JWTError] would propagate as [Raises]. *)
Definition verify_download_token (cfg : Settings) (utcnow : Z) (token : Jose.token)
  : py_result (option Jose.jvalue) :=
  match Jose.decode mac utcnow token (secret_key cfg) ["HS256"] with
  | Returns payload =>
      let file_id := Jose.get "file_id" payload in
      let token_type := Jose.get "type" payload in
      if bool_decide (file_id = Jose.JNull)
         || negb (bool_decide (token_type = Jose.JStr "download"))
      then Returns None
      else Returns (Some file_id)
  | Raises e => if Jose.is_JWTError e then Returns None else Raises e
  end.
End Token.

(** ** The world the service runs in *)

(** The JSON object kept in Redis under [file:{file_id}]. *)
Record Metadata := {
  md_file_id : string;
  md_filename : string;
  md_file_size : Z;
  md_content_type : string;
  md_upload_timestamp : Z;
  md_scan_status : string;
  md_scan_result : option VirusScanResult;
  md_scan_timestamp : option Z;
  md_download_count : Z;
  md_last_downloaded : option Z;
  md_file_path : string;
  md_task_id : option string
}.

(** What [pyclamd]'s [scan_file] hands back: [None], a dict from file names
    to a value, or some other object.  A dict value is a tuple of strings
    (as in [('FOUND', 'Eicar')]) or any other object, kept by its [str]. *)
Inductive threat_info :=
  | TiTuple (items : list string)
  | TiOther (str_form : string).

Inductive clamd_reply :=
  | ReplyNone
  | ReplyDict (entries : list (string * threat_info))
  | ReplyOther (type_name : string).

(** One clamd endpoint: what its three commands answer, and how long a scan
    takes. *)
Record Clamd := {
  cd_ping : py_result bool;
  cd_version : py_result string;
  cd_scan_file : string -> py_result clamd_reply;
  cd_latency : Z
}.

Inductive celery_event :=
  | UpdateState (file_id state : string)
  | Delay (task_id file_id filename : string).

Record World := mkWorld {
  utcnow : Z;                       (* the clock, in seconds *)
  redis_up : bool;                  (* whether Redis commands succeed *)
  redis : gmap string Metadata;
  fs : gmap string bytes;           (* local files, scratch files included *)
  s3_fault : option exn;            (* what S3 requests raise, if anything *)
  bucket : gmap string bytes;
  clamd_unix : Clamd;
  clamd_net : Clamd;
  scan_log : list string;           (* paths submitted to clamd, latest first *)
  celery_log : list celery_event    (* task states and submissions, latest first *)
}.

Definition set_utcnow (t : Z) (w : World) : World :=
  mkWorld t (redis_up w) (redis w) (fs w) (s3_fault w) (bucket w)
          (clamd_unix w) (clamd_net w) (scan_log w) (celery_log w).
Definition set_redis (r : gmap string Metadata) (w : World) : World :=
  mkWorld (utcnow w) (redis_up w) r (fs w) (s3_fault w) (bucket w)
          (clamd_unix w) (clamd_net w) (scan_log w) (celery_log w).
Definition set_fs (f : gmap string bytes) (w : World) : World :=
  mkWorld (utcnow w) (redis_up w) (redis w) f (s3_fault w) (bucket w)
          (clamd_unix w) (clamd_net w) (scan_log w) (celery_log w).
Definition set_bucket (b : gmap string bytes) (w : World) : World :=
  mkWorld (utcnow w) (redis_up w) (redis w) (fs w) (s3_fault w) b
          (clamd_unix w) (clamd_net w) (scan_log w) (celery_log w).
Definition set_scan_log (l : list string) (w : World) : World :=
  mkWorld (utcnow w) (redis_up w) (redis w) (fs w) (s3_fault w) (bucket w)
          (clamd_unix w) (clamd_net w) l (celery_log w).
Definition set_celery_log (l : list celery_event) (w : World) : World :=
  mkWorld (utcnow w) (redis_up w) (redis w) (fs w) (s3_fault w) (bucket w)
          (clamd_unix w) (clamd_net w) (scan_log w) l.

(** [os.path.exists] *)
Definition path_exists (p : string) (files : gmap string bytes) : bool :=
  bool_decide (is_Some (files !! p)).

Record UploadFile := {
  uf_filename : string;
  uf_content : bytes;
  uf_content_type : option string
}.

(** ** app/storage/local.py *)

Module LocalStorage.

Definition get_file_path (cfg : Settings) (file_id original_filename : string) : string :=
  Path.join (local_storage_path cfg) (create_secure_filename original_filename file_id).

Definition save_file (cfg : Settings) (file : UploadFile) (file_id : string) (w : World)
  : py_result string * World :=
  let secure_filename := create_secure_filename (uf_filename file) file_id in
  let file_path := Path.join (local_storage_path cfg) secure_filename in
  if path_exists file_path (fs w)
  then (Raises (Exn FileExistsError ("File " ++ secure_filename ++ " already exists")), w)
  else (Returns file_path, set_fs (<[file_path := uf_content file]> (fs w)) w).

Definition file_exists (cfg : Settings) (file_id original_filename : string) (w : World) : bool :=
  path_exists (get_file_path cfg file_id original_filename) (fs w).

Definition delete_file (cfg : Settings) (file_id original_filename : string) (w : World)
  : bool * World :=
  let file_path := get_file_path cfg file_id original_filename in
  if path_exists file_path (fs w)
  then (true, set_fs (delete file_path (fs w)) w)
  else (false, w).

Definition get_download_path (cfg : Settings) (file_id original_filename : string) (w : World)
  : option string :=
  let file_path := get_file_path cfg file_id original_filename in
  if path_exists file_path (fs w) then Some file_path else None.

End LocalStorage.

(** ** app/storage/s3.py

    Every request to S3 raises [s3_fault] when it is set.  Without a fault,
    [put_object] stores the body under the key whatever was there,
    [delete_object] succeeds whether or not the key exists, and
    [head_object] and [download_file] raise [ClientError] on a missing key. *)

Module S3Storage.

Definition get_s3_key (file_id original_filename : string) : string :=
  "uploads/" ++ create_secure_filename original_filename file_id.

Definition is_ClientError (e : exn) : bool := bool_decide (exn_cls e = ClientError).

Definition save_file (cfg : Settings) (file : UploadFile) (file_id : string) (w : World)
  : py_result string * World :=
  let secure_filename := create_secure_filename (uf_filename file) file_id in
  let s3_key := "uploads/" ++ secure_filename in
  match s3_fault w with
  | Some e =>
      if is_ClientError e
      then (Raises (Exn Exception ("Failed to upload file to S3: " ++ exn_msg e)), w)
      else (Raises e, w)
  | None =>
      (Returns ("s3://" ++ s3_bucket_name cfg ++ "/" ++ s3_key),
       set_bucket (<[s3_key := uf_content file]> (bucket w)) w)
  end.

Definition file_exists (file_id original_filename : string) (w : World) : py_result bool :=
  let s3_key := get_s3_key file_id original_filename in
  match s3_fault w with
  | Some e => if is_ClientError e then Returns false else Raises e
  | None => Returns (bool_decide (is_Some (bucket w !! s3_key)))
  end.

Definition delete_file (file_id original_filename : string) (w : World)
  : py_result bool * World :=
  let s3_key := get_s3_key file_id original_filename in
  match s3_fault w with
  | Some e => if is_ClientError e then (Returns false, w) else (Raises e, w)
  | None => (Returns true, set_bucket (delete s3_key (bucket w)) w)
  end.

(** [tempfile.mkstemp()] creates an empty file under a name not in use. *)
Definition mkstemp (w : World) : string * World :=
  let temp_path := fresh_string "/tmp/tmp" (fs w) in
  (temp_path, set_fs (<[temp_path := []]> (fs w)) w).

Definition download_file_to_temp (file_id original_filename : string) (w : World)
  : py_result (option string) * World :=
  let s3_key := get_s3_key file_id original_filename in
  let '(temp_path, w1) := mkstemp w in
  match s3_fault w1 with
  | Some e => if is_ClientError e then (Returns None, w1) else (Raises e, w1)
  | None =>
      match bucket w1 !! s3_key with
      | None => (Returns None, w1)
      | Some body => (Returns (Some temp_path), set_fs (<[temp_path := body]> (fs w1)) w1)
      end
  end.

Definition generate_presigned_url (cfg : Settings) (file_id original_filename : string)
    (expiration : Z) (w : World) : py_result (option string) :=
  let s3_key := get_s3_key file_id original_filename in
  match s3_fault w with
  | Some e => if is_ClientError e then Returns None else Raises e
  | None => Returns (Some ("https://" ++ s3_bucket_name cfg ++ ".s3.amazonaws.com/" ++ s3_key))
  end.

End S3Storage.

(** ** app/storage/azure.py

    The container is a state of its own: no other module constructs an
    [AzureStorage]. *)

Module AzureStorage.

Record Container := {
  azure_fault : option exn;
  blobs : gmap string bytes
}.

Definition get_blob_name (file_id original_filename : string) : string :=
  "uploads/" ++ create_secure_filename original_filename file_id.

(** [upload_blob(..., overwrite=False)] raises [ResourceExistsError] on an
    existing blob. *)
Definition save_file (cfg : Settings) (file : UploadFile) (file_id : string) (c : Container)
  : py_result string * Container :=
  let secure_filename := create_secure_filename (uf_filename file) file_id in
  let blob_name := "uploads/" ++ secure_filename in
  match azure_fault c with
  | Some e =>
      if bool_decide (exn_cls e = ResourceExistsError)
      then (Raises (Exn FileExistsError ("File " ++ secure_filename ++ " already exists")), c)
      else (Raises (Exn Exception
                      ("Failed to upload file to Azure Blob Storage: " ++ exn_msg e)), c)
  | None =>
      if bool_decide (is_Some (blobs c !! blob_name))
      then (Raises (Exn FileExistsError ("File " ++ secure_filename ++ " already exists")), c)
      else (Returns ("azure://" ++ azure_container_name cfg ++ "/" ++ blob_name),
            {| azure_fault := None; blobs := <[blob_name := uf_content file]> (blobs c) |})
  end.

(** [delete_blob()] raises [ResourceNotFoundError] on a missing blob. *)
Definition delete_file (file_id original_filename : string) (c : Container)
  : bool * Container :=
  let blob_name := get_blob_name file_id original_filename in
  match azure_fault c with
  | Some _ => (false, c)
  | None =>
      if bool_decide (is_Some (blobs c !! blob_name))
      then (true, {| azure_fault := None; blobs := delete blob_name (blobs c) |})
      else (false, c)
  end.

End AzureStorage.

(** ** app/tasks/virus_scan.py *)

(** The dict [scan_file] returns. *)
Record ScanDict := {
  sd_status : ScanStatus;
  sd_threats_found : list string;
  sd_engine_version : string
}.

Module ClamAVScanner.

Definition clamd_ctl : string := "/var/run/clamav/clamd.ctl".

(** The Unix socket is preferred when its path exists; a daemon that does
    not answer the ping, or a ping that raises, ends in [ConnectionError]. *)
Definition connect (w : World) : py_result Clamd :=
  let cd := if path_exists clamd_ctl (fs w) then clamd_unix w else clamd_net w in
  match cd_ping cd with
  | Returns true => Returns cd
  | Returns false =>
      Raises (Exn ConnectionError
                ("Failed to connect to ClamAV: " ++ "ClamAV daemon not responding"))
  | Raises e =>
      Raises (Exn ConnectionError ("Failed to connect to ClamAV: " ++ exn_msg e))
  end.

(** The body of the [try] once the daemon has replied. *)
Definition parse_results (version_info : string) (scan_result : clamd_reply)
  : py_result ScanDict :=
  match scan_result with
  | ReplyNone =>
      Returns {| sd_status := CLEAN; sd_threats_found := [];
                 sd_engine_version := version_info |}
  | ReplyDict [] => Raises (Exn IndexError "list index out of range")
  | ReplyDict ((filename, threat_info) :: _) =>
      match threat_info with
      | TiTuple items =>
          match items !! 1%nat with
          | Some t =>
              Returns {| sd_status := INFECTED; sd_threats_found := [t];
                         sd_engine_version := version_info |}
          | None => Raises (Exn IndexError "tuple index out of range")
          end
      | TiOther s =>
          Returns {| sd_status := INFECTED; sd_threats_found := [s];
                     sd_engine_version := version_info |}
      end
  | ReplyOther ty =>
      Raises (Exn AttributeError ("'" ++ ty ++ "' object has no attribute 'keys'"))
  end.

Definition scan_failed (e : exn) : exn :=
  Exn Exception ("Virus scan failed: " ++ exn_msg e).

Definition scan_file (file_path : string) (w : World) : py_result ScanDict * World :=
  match connect w with
  | Raises e => (Raises e, w)
  | Returns cd =>
      match cd_version cd with
      | Raises e => (Raises (scan_failed e), w)
      | Returns version_info =>
          let w1 := set_utcnow (utcnow w + cd_latency cd)
                      (set_scan_log (file_path :: scan_log w) w) in
          match cd_scan_file cd file_path with
          | Raises e => (Raises (scan_failed e), w1)
          | Returns scan_result =>
              match parse_results version_info scan_result with
              | Raises e => (Raises (scan_failed e), w1)
              | Returns d => (Returns d, w1)
              end
          end
      end
  end.

End ClamAVScanner.

(** [self.update_state(state='SCANNING', meta=...)]: the state of the Celery
    task, kept by Celery's result backend. *)
Definition update_state (file_id state : string) (w : World) : World :=
  set_celery_log (UpdateState file_id state :: celery_log w) w.

(** The [try] block up to and including the scan: the scan outcome or the
    exception, the value of [temp_file_path], and the world. *)
Definition stage_and_scan (cfg : Settings) (file_id filename : string) (w : World)
  : py_result ScanDict * option string * World :=
  if String.eqb (storage_type cfg) "s3" then
    match S3Storage.download_file_to_temp file_id filename w with
    | (Raises e, w1) => (Raises e, None, w1)
    | (Returns None, w1) =>
        (Raises (Exn Exception "Failed to download file from S3 for scanning"), None, w1)
    | (Returns (Some temp_file_path), w1) =>
        let '(r, w2) := ClamAVScanner.scan_file temp_file_path w1 in
        (r, Some temp_file_path, w2)
    end
  else
    let file_path := LocalStorage.get_file_path cfg file_id filename in
    if negb (path_exists file_path (fs w))
    then (Raises (Exn Exception "File not found in local storage"), None, w)
    else let '(r, w1) := ClamAVScanner.scan_file file_path w in (r, None, w1).

(** The [finally] block. *)
Definition cleanup (temp_file_path : option string) (w : World) : World :=
  match temp_file_path with
  | Some p => if path_exists p (fs w) then set_fs (delete p (fs w)) w else w
  | None => w
  end.

Definition scan_file_for_viruses (cfg : Settings) (file_id filename : string) (w : World)
  : VirusScanResult * World :=
  let start_time := utcnow w in
  let w0 := update_state file_id "SCANNING" w in
  let '(outcome, temp_file_path, w1) := stage_and_scan cfg file_id filename w0 in
  let result :=
    match outcome with
    | Returns scan_result =>
        {| vr_file_id := file_id;
           vr_status := sd_status scan_result;
           vr_scan_timestamp := utcnow w1;
           vr_scan_duration := utcnow w1 - start_time;
           vr_engine_version := Some (sd_engine_version scan_result);
           vr_threats_found := Some (sd_threats_found scan_result);
           vr_error_message := None |}
    | Raises e =>
        {| vr_file_id := file_id;
           vr_status := ERROR;
           vr_scan_timestamp := utcnow w1;
           vr_scan_duration := utcnow w1 - start_time;
           vr_engine_version := None;
           vr_threats_found := None;
           vr_error_message := Some (exn_msg e) |}
    end in
  (result, cleanup temp_file_path w1).

(** ** app/main.py: the metadata store *)

Definition redis_key (file_id : string) : string := "file:" ++ file_id.

(** A Redis failure is swallowed into [None]. *)
Definition get_file_metadata (file_id : string) (w : World) : option Metadata :=
  if redis_up w then redis w !! redis_key file_id else None.

(** A Redis failure is swallowed into [False]. *)
Definition save_file_metadata (file_id : string) (metadata : Metadata) (w : World)
  : bool * World :=
  if redis_up w
  then (true, set_redis (<[redis_key file_id := metadata]> (redis w)) w)
  else (false, w).

Definition with_scan_result (scan_result : VirusScanResult) (m : Metadata) : Metadata :=
  {| md_file_id := md_file_id m;
     md_filename := md_filename m;
     md_file_size := md_file_size m;
     md_content_type := md_content_type m;
     md_upload_timestamp := md_upload_timestamp m;
     md_scan_status := ScanStatus_value (vr_status scan_result);
     md_scan_result := Some scan_result;
     md_scan_timestamp := Some (vr_scan_timestamp scan_result);
     md_download_count := md_download_count m;
     md_last_downloaded := md_last_downloaded m;
     md_file_path := md_file_path m;
     md_task_id := md_task_id m |}.

Definition update_file_scan_result (file_id : string) (scan_result : VirusScanResult)
    (w : World) : bool * World :=
  match get_file_metadata file_id w with
  | Some metadata => save_file_metadata file_id (with_scan_result scan_result metadata) w
  | None => (false, w)
  end.

(** The state a stored record is in, as its readers decode it. *)
Definition record_state (file_id : string) (w : World) : option string :=
  md_scan_status <$> redis w !! redis_key file_id.

(** ** app/main.py: the operations *)

Inductive Response :=
  | HTTPException (status_code : Z) (detail : string)
  | FileUploadResponse (file_id filename : string) (file_size : Z)
      (scan_status : ScanStatus) (task_id : string)
  | DownloadLinkResponse (download_token : Jose.token) (expires_at : Z)
  | FileResponse (path filename media_type : string)
  | JSONResponse (status_code : Z) (download_url : string)
  | DeletedResponse (message file_id : string).

(** The [storage] object built at import time from [settings.storage_type]. *)
Definition storage_is_s3 (cfg : Settings) : bool := String.eqb (storage_type cfg) "s3".

Definition storage_save_file (cfg : Settings) (file : UploadFile) (file_id : string)
    (w : World) : py_result string * World :=
  if storage_is_s3 cfg then S3Storage.save_file cfg file file_id w
  else LocalStorage.save_file cfg file file_id w.

Definition storage_file_exists (cfg : Settings) (file_id original_filename : string)
    (w : World) : py_result bool :=
  if storage_is_s3 cfg then S3Storage.file_exists file_id original_filename w
  else Returns (LocalStorage.file_exists cfg file_id original_filename w).

Definition storage_delete_file (cfg : Settings) (file_id original_filename : string)
    (w : World) : py_result bool * World :=
  if storage_is_s3 cfg then S3Storage.delete_file file_id original_filename w
  else let '(b, w1) := LocalStorage.delete_file cfg file_id original_filename w in
       (Returns b, w1).

Definition new_metadata (file_id : string) (file : UploadFile) (file_size : Z)
    (now : Z) (file_path : string) (task_id : option string) : Metadata :=
  {| md_file_id := file_id;
     md_filename := uf_filename file;
     md_file_size := file_size;
     md_content_type := default "application/octet-stream" (uf_content_type file);
     md_upload_timestamp := now;
     md_scan_status := ScanStatus_value PENDING;
     md_scan_result := None;
     md_scan_timestamp := None;
     md_download_count := 0;
     md_last_downloaded := None;
     md_file_path := file_path;
     md_task_id := task_id |}.

(** [POST /upload].  [file_id] is the [uuid4] drawn by [generate_file_id] and
    [task_id] the identifier Celery gives the submitted task. *)
Definition upload_file (cfg : Settings) (file_id task_id : string) (file : UploadFile)
    (w : World) : Response * World :=
  if String.eqb (uf_filename file) ""
  then (HTTPException 400 "No filename provided", w)
  else if negb (is_allowed_file cfg (uf_filename file))
  then (HTTPException 400 "File type not allowed", w)
  else
    let file_size := Z.of_nat (length (uf_content file)) in
    if file_size >? max_file_size cfg
    then (HTTPException 413 "File too large", w)
    else if file_size =? 0
    then (HTTPException 400 "Empty file not allowed", w)
    else
      match storage_save_file cfg file file_id w with
      | (Raises e, w1) =>
          if bool_decide (exn_cls e = FileExistsError)
          then (HTTPException 409 "File already exists", w1)
          else (HTTPException 500 ("Failed to upload file: " ++ exn_msg e), w1)
      | (Returns file_path, w1) =>
          let file_metadata := new_metadata file_id file file_size (utcnow w1) file_path None in
          match save_file_metadata file_id file_metadata w1 with
          | (false, w2) =>
              (HTTPException 500 "Failed to upload file: Failed to save file metadata", w2)
          | (true, w2) =>
              let w3 := set_celery_log
                          (Delay task_id file_id (uf_filename file) :: celery_log w2) w2 in
              let file_metadata' :=
                new_metadata file_id file file_size (utcnow w1) file_path (Some task_id) in
              let '(_, w4) := save_file_metadata file_id file_metadata' w3 in
              (FileUploadResponse file_id (uf_filename file) file_size PENDING task_id, w4)
          end
      end.

Section Download.
Variable mac : string -> string -> gmap string Jose.jvalue -> string.

(** [GET /files/{file_id}/download-link] *)
Definition generate_download_link (cfg : Settings) (file_id : string) (w : World)
  : Response :=
  match get_file_metadata file_id w with
  | None => HTTPException 404 "File not found"
  | Some metadata =>
      match ScanStatus_of_value (md_scan_status metadata) with
      | Raises _ => HTTPException 500 "Internal server error"
      | Returns scan_status =>
          if negb (bool_decide (scan_status = CLEAN)) then
            if bool_decide (scan_status = INFECTED)
            then HTTPException 403 "File contains viruses and cannot be downloaded"
            else if bool_decide (scan_status ∈ [PENDING; SCANNING])
            then HTTPException 202 "File is still being scanned. Please try again later."
            else HTTPException 500 "File scan failed. Please contact support."
          else
            match storage_file_exists cfg file_id (md_filename metadata) w with
            | Raises _ => HTTPException 500 "Internal server error"
            | Returns false => HTTPException 404 "File not found in storage"
            | Returns true =>
                DownloadLinkResponse
                  (generate_download_token mac cfg (utcnow w) file_id None)
                  (utcnow w + download_link_expire_hours cfg * 3600)
            end
      end
  end.

(** Truth value and [f"{...}"] rendering of the [file_id] claim. *)
Definition truthy (v : Jose.jvalue) : bool :=
  match v with
  | Jose.JNull => false
  | Jose.JStr s => negb (String.eqb s "")
  | Jose.JNum n => negb (n =? 0)
  end.

Definition format (v : Jose.jvalue) : string :=
  match v with
  | Jose.JNull => "None"
  | Jose.JStr s => s
  | Jose.JNum n => pretty n
  end.

Definition count_download (m : Metadata) (now : Z) : Metadata :=
  {| md_file_id := md_file_id m;
     md_filename := md_filename m;
     md_file_size := md_file_size m;
     md_content_type := md_content_type m;
     md_upload_timestamp := md_upload_timestamp m;
     md_scan_status := md_scan_status m;
     md_scan_result := md_scan_result m;
     md_scan_timestamp := md_scan_timestamp m;
     md_download_count := md_download_count m + 1;
     md_last_downloaded := Some now;
     md_file_path := md_file_path m;
     md_task_id := md_task_id m |}.

(** The [try] block of [download_file]; an [HTTPException] raised inside
    it is caught by its own [except Exception] and becomes a 500. *)
Definition serve (cfg : Settings) (file_id : string) (metadata : Metadata) (w : World)
  : Response * World :=
  if storage_is_s3 cfg then
    match S3Storage.generate_presigned_url cfg file_id (md_filename metadata) 3600 w with
    | Raises e => (HTTPException 500 ("Failed to download file: " ++ exn_msg e), w)
    | Returns None =>
        (HTTPException 500 "Failed to download file: Failed to generate download URL", w)
    | Returns (Some download_url) =>
        let '(_, w1) := save_file_metadata file_id (count_download metadata (utcnow w)) w in
        (JSONResponse 302 download_url, w1)
    end
  else
    match LocalStorage.get_download_path cfg file_id (md_filename metadata) w with
    | None => (HTTPException 500 "Failed to download file: File not found in storage", w)
    | Some file_path =>
        let '(_, w1) := save_file_metadata file_id (count_download metadata (utcnow w)) w in
        (FileResponse file_path (md_filename metadata) (md_content_type metadata), w1)
    end.

(** [GET /download/{token}] *)
Definition download_file (cfg : Settings) (token : Jose.token) (w : World)
  : Response * World :=
  match verify_download_token mac cfg (utcnow w) token with
  | Raises _ => (HTTPException 500 "Internal server error", w)
  | Returns None => (HTTPException 401 "Invalid or expired download token", w)
  | Returns (Some v) =>
      if negb (truthy v)
      then (HTTPException 401 "Invalid or expired download token", w)
      else
        let file_id := format v in
        match get_file_metadata file_id w with
        | None => (HTTPException 404 "File not found", w)
        | Some metadata =>
            match ScanStatus_of_value (md_scan_status metadata) with
            | Raises _ => (HTTPException 500 "Internal server error", w)
            | Returns scan_status =>
                if negb (bool_decide (scan_status = CLEAN))
                then (HTTPException 403 "File is not safe for download", w)
                else serve cfg file_id metadata w
            end
        end
  end.
End Download.

(** [DELETE /files/{file_id}] *)
Definition delete_file (cfg : Settings) (file_id : string) (w : World) : Response * World :=
  match get_file_metadata file_id w with
  | None => (HTTPException 404 "File not found", w)
  | Some metadata =>
      match storage_delete_file cfg file_id (md_filename metadata) w with
      | (Raises e, w1) => (HTTPException 500 ("Failed to delete file: " ++ exn_msg e), w1)
      | (Returns deleted, w1) =>
          let w2 := set_redis (delete (redis_key file_id) (redis w1)) w1 in
          (DeletedResponse
             (if deleted then "File deleted successfully"
              else "File metadata deleted (file may not have existed in storage)")
             file_id, w2)
      end
  end.

(** Whether a response hands the file's bytes (or a pre-authorised link to
    them) to the client. *)
Definition releases_bytes (r : Response) : bool :=
  match r with
  | FileResponse _ _ _ | JSONResponse _ _ => true
  | _ => false
  end.

(** ** Values used in closed examples *)

(** A keyed function standing in for HMAC-SHA256. *)
Definition example_mac (key alg : string) (c : gmap string Jose.jvalue) : string :=
  key ++ "." ++ alg ++ "." ++ format (Jose.get "file_id" c)
      ++ "." ++ format (Jose.get "exp" c) ++ "." ++ format (Jose.get "type" c).

(** The claims [generate_download_token] signs. *)
Definition download_claims (file_id : string) (expire : Z) : gmap string Jose.jvalue :=
  <["file_id" := Jose.JStr file_id]>
    (<["exp" := Jose.JNum expire]> (<["type" := Jose.JStr "download"]> ∅)).

(** A daemon that answers every command and finds nothing. *)
Definition quiet_clamd : Clamd :=
  {| cd_ping := Returns true;
     cd_version := Returns "ClamAV 1.0.0";
     cd_scan_file := fun _ => Returns ReplyNone;
     cd_latency := 2 |}.

(** A daemon that does not answer. *)
Definition dead_clamd : Clamd :=
  {| cd_ping := Raises (Exn ConnectionError "Could not reach clamd");
     cd_version := Raises (Exn ConnectionError "Could not reach clamd");
     cd_scan_file := fun _ => Raises (Exn ConnectionError "Could not reach clamd");
     cd_latency := 0 |}.

(** A daemon answering every scan with the given reply. *)
Definition replying_clamd (reply : clamd_reply) : Clamd :=
  {| cd_ping := Returns true;
     cd_version := Returns "ClamAV 1.0.0";
     cd_scan_file := fun _ => Returns reply;
     cd_latency := 2 |}.

Definition note_txt : UploadFile :=
  {| uf_filename := "note.txt";
     uf_content := [Byte.x68; Byte.x69];
     uf_content_type := Some "text/plain" |}.

Definition s3_settings : Settings :=
  {| storage_type := "s3";
     local_storage_path := local_storage_path settings;
     max_file_size := max_file_size settings;
     allowed_extensions := allowed_extensions settings;
     secret_key := secret_key settings;
     download_link_expire_hours := download_link_expire_hours settings;
     virus_scan_timeout := virus_scan_timeout settings;
     s3_bucket_name := s3_bucket_name settings;
     azure_container_name := azure_container_name settings |}.

(** The record [upload_file] writes for [note_txt] under identity ["f1"],
    in the given state. *)
Definition note_record (state : ScanStatus) : Metadata :=
  {| md_file_id := "f1";
     md_filename := "note.txt";
     md_file_size := 2;
     md_content_type := "text/plain";
     md_upload_timestamp := 1000;
     md_scan_status := ScanStatus_value state;
     md_scan_result := None;
     md_scan_timestamp := None;
     md_download_count := 0;
     md_last_downloaded := None;
     md_file_path := "uploads/f1.txt";
     md_task_id := Some "t1" |}.

(** A local-storage world holding [note_txt] and its record. *)
Definition note_world (state : ScanStatus) (cd : Clamd) : World :=
  {| utcnow := 1000;
     redis_up := true;
     redis := {[ "file:f1" := note_record state ]};
     fs := {[ "uploads/f1.txt" := uf_content note_txt ]};
     s3_fault := None;
     bucket := ∅;
     clamd_unix := dead_clamd;
     clamd_net := cd;
     scan_log := [];
     celery_log := [] |}.

(** An S3-storage world whose bucket holds the given objects. *)
Definition s3_world (state : ScanStatus) (objects : gmap string bytes) (cd : Clamd) : World :=
  {| utcnow := 1000;
     redis_up := true;
     redis := {[ "file:f1" := note_record state ]};
     fs := ∅;
     s3_fault := None;
     bucket := objects;
     clamd_unix := dead_clamd;
     clamd_net := cd;
     scan_log := [];
     celery_log := [] |}.


(** ** The spec's words, for comparison with the code *)




Definition infected_outcome : VirusScanResult :=
  {| vr_file_id := "f1"; vr_status := INFECTED; vr_scan_timestamp := 1010;
     vr_scan_duration := 2; vr_engine_version := Some "ClamAV 1.0.0";
     vr_threats_found := Some ["Eicar-Test-Signature"]; vr_error_message := None |}.


Definition eicar_reply : clamd_reply :=
  ReplyDict [("uploads/f1.txt", TiTuple ["FOUND"; "Eicar-Test-Signature"])].






(** An S3 world whose bucket is empty. *)
Definition empty_s3_world : World := s3_world PENDING ∅ quiet_clamd.


(** ** The rest of the storage classes *)

Module LocalStorageRest.

(** [LocalStorage.get_file_size]: [os.path.getsize] of the stored file. *)
Definition get_file_size (cfg : Settings) (file_id original_filename : string) (w : World)
  : option Z :=
  let file_path := LocalStorage.get_file_path cfg file_id original_filename in
  match fs w !! file_path with
  | Some content => Some (Z.of_nat (length content))
  | None => None
  end.

End LocalStorageRest.

Module S3StorageRest.

(** [S3Storage.get_file_size]: the [ContentLength] of [head_object]. *)
Definition get_file_size (file_id original_filename : string) (w : World)
  : py_result (option Z) :=
  let s3_key := S3Storage.get_s3_key file_id original_filename in
  match s3_fault w with
  | Some e => if S3Storage.is_ClientError e then Returns None else Raises e
  | None =>
      match bucket w !! s3_key with
      | Some body => Returns (Some (Z.of_nat (length body)))
      | None => Returns None
      end
  end.

End S3StorageRest.

Module AzureStorageRest.

(** [get_blob_properties()] raises [ResourceNotFoundError] on a missing
    blob; every exception is swallowed into [False]. *)
Definition file_exists (file_id original_filename : string) (c : AzureStorage.Container)
  : bool :=
  let blob_name := AzureStorage.get_blob_name file_id original_filename in
  match AzureStorage.azure_fault c with
  | Some _ => false
  | None => bool_decide (is_Some (AzureStorage.blobs c !! blob_name))
  end.

Definition get_file_size (file_id original_filename : string) (c : AzureStorage.Container)
  : option Z :=
  let blob_name := AzureStorage.get_blob_name file_id original_filename in
  match AzureStorage.azure_fault c with
  | Some _ => None
  | None =>
      match AzureStorage.blobs c !! blob_name with
      | Some body => Some (Z.of_nat (length body))
      | None => None
      end
  end.

(** The scratch file is created by [mkstemp] and opened for writing before
    the blob is asked for; every exception ends in [None]. *)
Definition download_file_to_temp (file_id original_filename : string)
    (c : AzureStorage.Container) (files : gmap string bytes)
  : option string * gmap string bytes :=
  let blob_name := AzureStorage.get_blob_name file_id original_filename in
  let temp_path := fresh_string "/tmp/tmp" files in
  let files1 := <[temp_path := []]> files in
  match AzureStorage.azure_fault c with
  | Some _ => (None, files1)
  | None =>
      match AzureStorage.blobs c !! blob_name with
      | None => (None, files1)
      | Some body => (Some temp_path, <[temp_path := body]> files1)
      end
  end.

(** [upload_blob(temp_file, ..., overwrite=True)]; a missing [temp_path]
    makes [open] raise, and every exception is re-raised as [Exception]. *)
Definition copy_file_from_temp (cfg : Settings) (temp_path file_id original_filename : string)
    (c : AzureStorage.Container) (files : gmap string bytes)
  : py_result string * AzureStorage.Container :=
  let secure_filename := create_secure_filename original_filename file_id in
  let blob_name := "uploads/" ++ secure_filename in
  match files !! temp_path with
  | None =>
      (Raises (Exn Exception
                 ("Failed to upload file to Azure Blob Storage: " ++
                  "[Errno 2] No such file or directory: '" ++ temp_path ++ "'")), c)
  | Some content =>
      match AzureStorage.azure_fault c with
      | Some e =>
          (Raises (Exn Exception
                     ("Failed to upload file to Azure Blob Storage: " ++ exn_msg e)), c)
      | None =>
          (Returns ("azure://" ++ azure_container_name cfg ++ "/" ++ blob_name),
           {| AzureStorage.azure_fault := None;
              AzureStorage.blobs := <[blob_name := content]> (AzureStorage.blobs c) |})
      end
  end.

(** [part.startswith(prefix)] *)
Fixpoint startswith (prefix s : string) : bool :=
  match prefix, s with
  | EmptyString, _ => true
  | String _ _, EmptyString => false
  | String a p, String b r => Ascii.eqb b a && startswith p r
  end.

(** [part.split('=', 1)[1]]: what follows the first ['=']. *)
Fixpoint after_first_eq (s : string) : option string :=
  match s with
  | EmptyString => None
  | String c r => if Ascii.eqb c "=" then Some r else after_first_eq r
  end.

(** The loop shared by the two [_extract_..._from_connection_string]
    methods: the first [;]-separated part that starts with [prefix]. *)
Definition extract_field (prefix missing conn_str : string) : py_result string :=
  match List.find (startswith prefix) (Str.split ";" conn_str) with
  | Some part =>
      match after_first_eq part with
      | Some value => Returns value
      | None => Raises (Exn IndexError "list index out of range")
      end
  | None => Raises (Exn ValueError missing)
  end.

(** [conn_str] is [settings.azure_storage_connection_string]. *)
Definition extract_account_name_from_connection_string (conn_str : string)
  : py_result string :=
  extract_field "AccountName=" "AccountName not found in connection string" conn_str.

Definition extract_account_key_from_connection_string (conn_str : string)
  : py_result string :=
  extract_field "AccountKey=" "AccountKey not found in connection string" conn_str.

End AzureStorageRest.

(** ** app/utils/helpers.py: [safe_remove_file] *)

Definition safe_remove_file (file_path : string) (w : World) : bool * World :=
  if path_exists file_path (fs w)
  then (true, set_fs (delete file_path (fs w)) w)
  else (false, w).

(** ** app/main.py: status and listing *)

Record FileInfo := {
  fi_file_id : string;
  fi_filename : string;
  fi_file_size : Z;
  fi_content_type : string;
  fi_upload_timestamp : Z;
  fi_scan_status : ScanStatus;
  fi_scan_result : option VirusScanResult;
  fi_scan_timestamp : option Z;
  fi_download_count : Z;
  fi_last_downloaded : option Z
}.

Inductive StatusResponse :=
  | StatusException (status_code : Z) (detail : string)
  | FileStatusResponse (file_info : FileInfo) (message : string).

Definition status_messages (s : ScanStatus) : string :=
  match s with
  | PENDING => "File uploaded successfully. Virus scan is pending."
  | SCANNING => "File is currently being scanned for viruses."
  | CLEAN => "File is clean and safe to download."
  | INFECTED => "File contains viruses and is not safe to download."
  | ERROR => "Virus scan failed. Please contact support."
  end.

(** [GET /files/{file_id}/status]; a status string that is no [ScanStatus]
    makes the [FileInfo] constructor raise, answered by the general handler. *)
Definition get_file_status (file_id : string) (w : World) : StatusResponse :=
  match get_file_metadata file_id w with
  | None => StatusException 404 "File not found"
  | Some metadata =>
      match ScanStatus_of_value (md_scan_status metadata) with
      | Raises _ => StatusException 500 "Internal server error"
      | Returns scan_status =>
          FileStatusResponse
            {| fi_file_id := md_file_id metadata;
               fi_filename := md_filename metadata;
               fi_file_size := md_file_size metadata;
               fi_content_type := md_content_type metadata;
               fi_upload_timestamp := md_upload_timestamp metadata;
               fi_scan_status := scan_status;
               fi_scan_result := md_scan_result metadata;
               fi_scan_timestamp := md_scan_timestamp metadata;
               fi_download_count := md_download_count metadata;
               fi_last_downloaded := md_last_downloaded metadata |}
            (status_messages scan_status)
      end
  end.

(** [l[start:stop]] for integers of either sign. *)
Definition py_slice {A : Type} (l : list A) (start stop : Z) : list A :=
  let n := Z.of_nat (length l) in
  let clamp i := if i <? 0 then Z.max (i + n) 0 else Z.min i n in
  let a := clamp start in
  let b := clamp stop in
  take (Z.to_nat (b - a)) (drop (Z.to_nat a) l).

Record FileSummary := {
  fs_file_id : string;
  fs_filename : string;
  fs_file_size : Z;
  fs_upload_timestamp : Z;
  fs_scan_status : string;
  fs_download_count : Z
}.

Inductive ListResponse :=
  | ListException (status_code : Z) (detail : string)
  | FileList (files : list FileSummary) (total skip limit : Z).

(** [redis_client.keys("file:*")]; Redis promises no order, the map's own
    enumeration order stands for it. *)
Definition file_keys (w : World) : list string :=
  List.filter (AzureStorageRest.startswith "file:") (map fst (map_to_list (redis w))).

Definition summary (metadata : Metadata) : FileSummary :=
  {| fs_file_id := md_file_id metadata;
     fs_filename := md_filename metadata;
     fs_file_size := md_file_size metadata;
     fs_upload_timestamp := md_upload_timestamp metadata;
     fs_scan_status := md_scan_status metadata;
     fs_download_count := md_download_count metadata |}.

(** [GET /files] *)
Definition list_files (skip limit : Z) (w : World) : ListResponse :=
  if negb (redis_up w)
  then ListException 500 "Failed to list files"
  else
    let keys := file_keys w in
    let paginated_keys := py_slice keys skip (skip + limit) in
    let files := omap (fun key => summary <$> redis w !! key) paginated_keys in
    FileList files (Z.of_nat (length keys)) skip limit.


(** The [files] entry of a listing, empty for an error answer. *)
Definition listed (r : ListResponse) : list FileSummary :=
  match r with
  | FileList files _ _ _ => files
  | ListException _ _ => []
  end.


(** A connection string written from its fields, [k1=v1;k2=v2;...], and the
    value of the first field with a given key. *)
Definition connection_string (fields : list (string * string)) : string :=
  String.concat ";" (map (fun kv => fst kv ++ "=" ++ snd kv) fields).

Definition field_value (key : string) (fields : list (string * string)) : option string :=
  snd <$> List.find (fun kv => String.eqb (fst kv) key) fields.

(** Keys without [;] and [=], values without [;]. *)
Definition well_formed_field (kv : string * string) : Prop :=
  Str.mem ";" (fst kv) = false /\ Str.mem "=" (fst kv) = false
  /\ Str.mem ";" (snd kv) = false.


(** ** app/tasks/virus_scan.py: [cleanup_temp_files] *)

(** [s[len(prefix):]] when [s.startswith(prefix)]. *)
Fixpoint strip_prefix (prefix s : string) : option string :=
  match prefix, s with
  | EmptyString, _ => Some s
  | String _ _, EmptyString => None
  | String a p, String b r => if Ascii.eqb b a then strip_prefix p r else None
  end.

(** Whether [path] is [os.path.join(temp_dir, filename)] for an entry
    [filename] of [temp_dir] with [filename.startswith('tmp')]. *)
Definition tmp_entry (temp_dir path : string) : bool :=
  match strip_prefix (temp_dir ++ "/") path with
  | Some filename =>
      negb (Str.mem "/" filename) && AzureStorageRest.startswith "tmp" filename
  | None => false
  end.

(** [temp_dir] is [tempfile.gettempdir()] and [ctime] is [os.path.getctime];
    the loop visits the entries of the directory and unlinks those older
    than an hour. *)
Definition cleanup_temp_files (temp_dir : string) (ctime : string -> Z) (w : World) : World :=
  let current_time := utcnow w in
  let visit (files : gmap string bytes) (file_path : string) :=
    if tmp_entry temp_dir file_path && (current_time - ctime file_path >? 3600)
    then delete file_path files
    else files in
  set_fs (fold_left visit (map fst (map_to_list (fs w))) (fs w)) w.

(** The download count a record carries. *)
Definition download_count (file_id : string) (w : World) : option Z :=
  md_download_count <$> redis w !! redis_key file_id.

(** * Properties *)

(** ** File names and upload validation *)

Lemma append_nil (t : string) : "" ++ t = t.
Proof. reflexivity. Qed.

Lemma append_cons (c : ascii) (r t : string) : String c r ++ t = String c (r ++ t).
Proof. reflexivity. Qed.

Lemma split_no_sep (sep : ascii) (s : string) :
  Str.mem sep s = false -> Str.split sep s = [s].
Proof.
  induction s as [|c r IH]; cbn [Str.mem Str.split]; [reflexivity|].
  intros H. apply orb_false_iff in H as [Hc Hr].
  rewrite Hc, (IH Hr). reflexivity.
Qed.

Lemma mem_append (c : ascii) (s t : string) :
  Str.mem c (s ++ t) = Str.mem c s || Str.mem c t.
Proof.
  induction s as [|d r IH].
  - rewrite append_nil. reflexivity.
  - rewrite append_cons. cbn [Str.mem]. rewrite IH. apply orb_assoc.
Qed.

Lemma rfind_dot_absent (s : string) :
  Str.mem "." s = false -> Str.rfind_dot s = None.
Proof.
  induction s as [|c r IH]; cbn [Str.mem Str.rfind_dot]; [reflexivity|].
  intros H. apply orb_false_iff in H as [Hc Hr].
  rewrite (IH Hr), Hc. reflexivity.
Qed.

Lemma rfind_dot_last (stem ext : string) :
  Str.mem "." ext = false ->
  Str.rfind_dot (stem ++ "." ++ ext) = Some (String.length stem).
Proof.
  intros H. induction stem as [|c r IH].
  - rewrite append_nil, append_cons, append_nil. cbn [Str.rfind_dot].
    rewrite (rfind_dot_absent _ H). reflexivity.
  - rewrite append_cons. cbn [Str.rfind_dot String.length]. rewrite IH. reflexivity.
Qed.

Lemma drop_append (s t : string) : Str.drop (String.length s) (s ++ t) = t.
Proof.
  induction s as [|c r IH].
  - rewrite append_nil. destruct t; reflexivity.
  - rewrite append_cons. exact IH.
Qed.

Lemma length_append (s t : string) :
  String.length (s ++ t) = (String.length s + String.length t)%nat.
Proof.
  induction s as [|c r IH].
  - reflexivity.
  - rewrite append_cons. cbn [String.length]. rewrite IH. reflexivity.
Qed.

(** [Path(stem + "." + ext).suffix] is ["." + ext] for a plain file name. *)
Lemma suffix_stem_ext (stem ext : string) :
  stem <> "" -> Str.mem "/" stem = false ->
  ext <> "" -> Str.mem "." ext = false -> Str.mem "/" ext = false ->
  Path.suffix (stem ++ "." ++ ext) = "." ++ ext.
Proof.
  intros Hstem Hs1 Hext He1 He2.
  assert (Hname : Path.name (stem ++ "." ++ ext) = stem ++ "." ++ ext).
  { unfold Path.name, Path.parts. rewrite split_no_sep.
    - destruct stem as [|c r]; [congruence|].
      simpl. unfold Path.keep_part. simpl.
      destruct r as [|d r']; simpl.
      + destruct c as [[] [] [] [] [] [] [] []]; reflexivity.
      + destruct c as [[] [] [] [] [] [] [] []]; reflexivity.
    - rewrite mem_append, Hs1. simpl. exact He2. }
  assert (H0 : (0 <? String.length stem)%nat = true).
  { destruct stem; [congruence | reflexivity]. }
  assert (H1 : (S (String.length stem) <? String.length (stem ++ "." ++ ext))%nat = true).
  { rewrite length_append, append_cons, append_nil. cbn [String.length].
    destruct ext; [congruence|]. cbn [String.length]. apply Nat.ltb_lt. lia. }
  unfold Path.suffix. rewrite Hname, (rfind_dot_last _ _ He1), H0, H1.
  apply drop_append.
Qed.

Lemma get_file_extension_stem_ext (stem ext : string) :
  stem <> "" -> Str.mem "/" stem = false ->
  ext <> "" -> Str.mem "." ext = false -> Str.mem "/" ext = false ->
  get_file_extension (stem ++ "." ++ ext) = "." ++ Str.lower ext.
Proof.
  intros. unfold get_file_extension. rewrite suffix_stem_ext by assumption.
  reflexivity.
Qed.

Example extension_upper : get_file_extension "REPORT.TXT" = ".txt".
Proof. reflexivity. Qed.

Example extension_last_only : get_file_extension "backup.tar.GZ" = ".gz".
Proof. reflexivity. Qed.

Example extension_hidden_file : get_file_extension ".bashrc" = "".
Proof. reflexivity. Qed.

Example extension_trailing_dot : get_file_extension "notes." = "".
Proof. reflexivity. Qed.

Lemma empty_extension_not_allowed : "" ∉ allowed_extensions settings.
Proof. apply (bool_decide_unpack _). vm_compute. reflexivity. Qed.

(** C10.  Upload validation accepts a file name exactly when its lowercased
    [Path.suffix] is in the configured set of allowed extensions; a name
    without extension is rejected under the settings of config.py; a rejected
    name makes the upload answer 400 with storage, records and task queue
    untouched; names whose extensions differ only in case are treated alike,
    and the name every backend stores under is the file identity followed by
    the lowercased extension. *)
Theorem upload_validation_by_extension
    (cfg : Settings) (file_id task_id : string) (file : UploadFile) (w : World) :
  let f := uf_filename file in
  (is_allowed_file cfg f = true <-> Str.lower (Path.suffix f) ∈ allowed_extensions cfg)
  /\ (Path.suffix f = "" -> is_allowed_file settings f = false)
  /\ (is_allowed_file cfg f = false ->
      exists detail, upload_file cfg file_id task_id file w = (HTTPException 400 detail, w))
  /\ (forall f', Str.lower (Path.suffix f') = Str.lower (Path.suffix f) ->
                 is_allowed_file cfg f' = is_allowed_file cfg f)
  /\ (forall stem ext,
        stem <> "" -> Str.mem "/" stem = false ->
        ext <> "" -> Str.mem "." ext = false -> Str.mem "/" ext = false ->
        is_allowed_file cfg (stem ++ "." ++ ext)
        = bool_decide ("." ++ Str.lower ext ∈ allowed_extensions cfg))
  /\ create_secure_filename f file_id = file_id ++ Str.lower (Path.suffix f)
  /\ LocalStorage.get_file_path cfg file_id f
     = Path.join (local_storage_path cfg) (file_id ++ Str.lower (Path.suffix f))
  /\ S3Storage.get_s3_key file_id f = "uploads/" ++ file_id ++ Str.lower (Path.suffix f)
  /\ AzureStorage.get_blob_name file_id f
     = "uploads/" ++ file_id ++ Str.lower (Path.suffix f).
Proof.
  intros f. repeat split.
  - intros H. apply bool_decide_eq_true in H. exact H.
  - intros H. apply bool_decide_eq_true. exact H.
  - intros H. unfold is_allowed_file, get_file_extension. rewrite H. simpl.
    apply bool_decide_eq_false. exact empty_extension_not_allowed.
  - intros H. unfold upload_file. fold f.
    destruct (String.eqb f ""); [eexists; reflexivity|].
    rewrite H. simpl. eexists; reflexivity.
  - intros f' H. unfold is_allowed_file, get_file_extension. rewrite H. reflexivity.
  - intros stem ext H1 H2 H3 H4 H5. unfold is_allowed_file.
    rewrite get_file_extension_stem_ext by assumption. reflexivity.
Qed.

Lemma upload_validation_by_extension_witness :
  is_allowed_file settings "README" = false
  /\ is_allowed_file settings "Photo.JPG" = is_allowed_file settings "photo.jpg"
  /\ is_allowed_file settings "Photo.JPG" = true.
Proof.
  pose (file := {| uf_filename := "README"; uf_content := [];
                   uf_content_type := None |}).
  pose (w := mkWorld 0 true ∅ ∅ None ∅
               (Build_Clamd (Returns true) (Returns "ClamAV") (fun _ => Returns ReplyNone) 0)
               (Build_Clamd (Returns true) (Returns "ClamAV") (fun _ => Returns ReplyNone) 0)
               [] []).
  destruct (upload_validation_by_extension settings "id" "task" file w)
    as (_ & Hnoext & _ & _ & Hstem & _).
  assert (H1 := Hstem "Photo" "JPG").
  assert (H2 := Hstem "photo" "jpg").
  split; [apply Hnoext; reflexivity|].
  split.
  - etransitivity; [apply H1; (reflexivity || discriminate)|].
    symmetry. apply H2; (reflexivity || discriminate).
  - etransitivity; [apply H1; (reflexivity || discriminate)|].
    vm_compute. reflexivity.
Defined.

(** ** The download token *)

Section TokenProperties.
Variable mac : string -> string -> gmap string Jose.jvalue -> string.

Lemma download_claims_file_id file_id expire :
  Jose.get "file_id" (download_claims file_id expire) = Jose.JStr file_id.
Proof. unfold Jose.get, download_claims. by rewrite lookup_insert_eq. Qed.

Lemma download_claims_exp file_id expire :
  download_claims file_id expire !! "exp" = Some (Jose.JNum expire).
Proof.
  unfold download_claims.
  rewrite lookup_insert_ne by discriminate. by rewrite lookup_insert_eq.
Qed.

Lemma download_claims_type file_id expire :
  Jose.get "type" (download_claims file_id expire) = Jose.JStr "download".
Proof.
  unfold Jose.get, download_claims.
  rewrite !lookup_insert_ne by discriminate. by rewrite lookup_insert_eq.
Qed.

(** What [verify_download_token] does to a correctly signed token carrying
    the claims the service writes. *)
Lemma verify_signed cfg now file_id expire :
  verify_download_token mac cfg now
    (Jose.encode mac (download_claims file_id expire) (secret_key cfg) "HS256")
  = if expire <? now then Returns None else Returns (Some (Jose.JStr file_id)).
Proof.
  unfold verify_download_token, Jose.encode, Jose.decode, Jose.validate_exp.
  rewrite bool_decide_true by (apply list_elem_of_here).
  rewrite String.eqb_refl. cbn [negb].
  rewrite download_claims_exp.
  destruct (expire <? now); [reflexivity|].
  rewrite download_claims_file_id, download_claims_type. reflexivity.
Qed.




(** A zero [ttl] is read like an absent one. *)
Lemma zero_ttl_is_default cfg t0 file_id :
  generate_download_token mac cfg t0 file_id (Some 0)
  = generate_download_token mac cfg t0 file_id None.
Proof. reflexivity. Qed.

End TokenProperties.



(** ** Release of bytes *)

Lemma ScanStatus_of_value_value (s : ScanStatus) :
  ScanStatus_of_value (ScanStatus_value s) = Returns s.
Proof. destruct s; reflexivity. Qed.

Lemma ScanStatus_of_value_inv (v : string) (s : ScanStatus) :
  ScanStatus_of_value v = Returns s -> v = ScanStatus_value s.
Proof.
  unfold ScanStatus_of_value.
  destruct (String.eqb v "pending") eqn:E1;
    [apply String.eqb_eq in E1; intros [= <-]; exact E1|].
  destruct (String.eqb v "scanning") eqn:E2;
    [apply String.eqb_eq in E2; intros [= <-]; exact E2|].
  destruct (String.eqb v "clean") eqn:E3;
    [apply String.eqb_eq in E3; intros [= <-]; exact E3|].
  destruct (String.eqb v "infected") eqn:E4;
    [apply String.eqb_eq in E4; intros [= <-]; exact E4|].
  destruct (String.eqb v "error") eqn:E5;
    [apply String.eqb_eq in E5; intros [= <-]; exact E5|].
  discriminate.
Qed.

Section ReleaseProperties.
Variable mac : string -> string -> gmap string Jose.jvalue -> string.

(** No branch of [serve] is reached unless the record decodes to [CLEAN]. *)
Lemma download_file_releases cfg token w :
  releases_bytes (fst (download_file mac cfg token w)) = true ->
  exists v metadata,
    verify_download_token mac cfg (utcnow w) token = Returns (Some v)
    /\ get_file_metadata (format v) w = Some metadata
    /\ md_scan_status metadata = ScanStatus_value CLEAN.
Proof.
  unfold download_file.
  destruct (verify_download_token mac cfg (utcnow w) token) as [e|[v|]];
    try discriminate.
  destruct (negb (truthy v)); [discriminate|].
  destruct (get_file_metadata (format v) w) as [metadata|] eqn:Hmd; [|discriminate].
  destruct (ScanStatus_of_value (md_scan_status metadata)) as [e|s] eqn:Hs;
    [discriminate|].
  destruct (bool_decide (s = CLEAN)) eqn:Hc; [|discriminate].
  apply bool_decide_eq_true in Hc. subst s.
  intros _. exists v, metadata.
  split; [reflexivity|]. split; [exact Hmd|].
  by apply ScanStatus_of_value_inv.
Qed.

(** C2.  With the record of [file_id] in state [s]: the download-link
    operation answers 403 Forbidden for [infected] and the retry-later 202
    for [pending] and [scanning]; it hands out a link for [clean] when the
    bytes are in storage, and for no other state.  Redeeming a token, even a
    valid one for this very file, answers 403 unless the record is [clean] at
    that moment, and whenever a download releases bytes the record named by
    the token is [clean]. *)
Theorem bytes_released_only_when_clean
    (cfg : Settings) (file_id : string) (metadata : Metadata) (s : ScanStatus) (w : World) :
  get_file_metadata file_id w = Some metadata ->
  md_scan_status metadata = ScanStatus_value s ->
  (s = INFECTED ->
     generate_download_link mac cfg file_id w
     = HTTPException 403 "File contains viruses and cannot be downloaded")
  /\ (s = PENDING \/ s = SCANNING ->
      generate_download_link mac cfg file_id w
      = HTTPException 202 "File is still being scanned. Please try again later.")
  /\ (s = CLEAN ->
      storage_file_exists cfg file_id (md_filename metadata) w = Returns true ->
      exists token expires_at,
        generate_download_link mac cfg file_id w = DownloadLinkResponse token expires_at)
  /\ ((exists token expires_at,
         generate_download_link mac cfg file_id w = DownloadLinkResponse token expires_at) ->
      s = CLEAN)
  /\ (forall token,
        verify_download_token mac cfg (utcnow w) token = Returns (Some (Jose.JStr file_id)) ->
        file_id <> "" -> s <> CLEAN ->
        download_file mac cfg token w
        = (HTTPException 403 "File is not safe for download", w))
  /\ (forall token,
        releases_bytes (fst (download_file mac cfg token w)) = true ->
        exists v m,
          verify_download_token mac cfg (utcnow w) token = Returns (Some v)
          /\ get_file_metadata (format v) w = Some m
          /\ md_scan_status m = ScanStatus_value CLEAN).
Proof.
  intros Hmd Hs.
  assert (Hdec : ScanStatus_of_value (md_scan_status metadata) = Returns s)
    by (rewrite Hs; apply ScanStatus_of_value_value).
  repeat split.
  - intros ->. unfold generate_download_link. rewrite Hmd, Hdec. reflexivity.
  - intros [-> | ->]; unfold generate_download_link; rewrite Hmd, Hdec; reflexivity.
  - intros -> Hex. unfold generate_download_link. rewrite Hmd, Hdec, Hex.
    cbn. eauto.
  - intros (token & expires_at & H). revert H.
    unfold generate_download_link. rewrite Hmd, Hdec.
    destruct s; cbn; try discriminate. reflexivity.
  - intros token Hv Hne Hs'. unfold download_file. rewrite Hv.
    cbn [truthy format].
    apply String.eqb_neq in Hne. rewrite Hne. cbn [negb].
    rewrite Hmd, Hdec.
    rewrite (bool_decide_false _ Hs'). reflexivity.
  - intros token. apply download_file_releases.
Qed.
End ReleaseProperties.

Lemma bytes_released_only_when_clean_witness :
  generate_download_link example_mac settings "f1" (note_world INFECTED quiet_clamd)
  = HTTPException 403 "File contains viruses and cannot be downloaded"
  /\ download_file example_mac settings
       (generate_download_token example_mac settings 1000 "f1" None)
       (note_world INFECTED quiet_clamd)
     = (HTTPException 403 "File is not safe for download", note_world INFECTED quiet_clamd).
Proof.
  assert (Hmd : get_file_metadata "f1" (note_world INFECTED quiet_clamd)
                = Some (note_record INFECTED)) by (vm_compute; reflexivity).
  assert (Hs : md_scan_status (note_record INFECTED) = ScanStatus_value INFECTED)
    by reflexivity.
  destruct (bytes_released_only_when_clean example_mac settings "f1"
              (note_record INFECTED) INFECTED (note_world INFECTED quiet_clamd) Hmd Hs)
    as (Hinf & _ & _ & _ & Hredeem & _).
  split; [apply Hinf; reflexivity|].
  apply Hredeem; [vm_compute; reflexivity | discriminate | discriminate].
Defined.

(** ** The scan task and the record store *)

Lemma set_redis_same (w : World) : set_redis (redis w) w = w.
Proof. destruct w; reflexivity. Qed.

(** The scanner neither reads nor writes the record store. *)
Lemma scan_file_set_redis (path : string) (r : gmap string Metadata) (w : World) :
  ClamAVScanner.scan_file path (set_redis r w)
  = (fst (ClamAVScanner.scan_file path w),
     set_redis r (snd (ClamAVScanner.scan_file path w))).
Proof.
  destruct w as [t up rd files fault bk cu cn sl cl].
  unfold ClamAVScanner.scan_file, ClamAVScanner.connect, set_redis. cbn.
  destruct (path_exists ClamAVScanner.clamd_ctl files).
  - destruct (cd_ping cu) as [e|[|]]; try reflexivity.
    destruct (cd_version cu); [reflexivity|].
    destruct (cd_scan_file cu path); [reflexivity|].
    destruct (ClamAVScanner.parse_results _ _); reflexivity.
  - destruct (cd_ping cn) as [e|[|]]; try reflexivity.
    destruct (cd_version cn); [reflexivity|].
    destruct (cd_scan_file cn path); [reflexivity|].
    destruct (ClamAVScanner.parse_results _ _); reflexivity.
Qed.

Lemma download_file_to_temp_set_redis file_id filename r (w : World) :
  S3Storage.download_file_to_temp file_id filename (set_redis r w)
  = (fst (S3Storage.download_file_to_temp file_id filename w),
     set_redis r (snd (S3Storage.download_file_to_temp file_id filename w))).
Proof.
  destruct w as [t up rd files fault bk cu cn sl cl].
  unfold S3Storage.download_file_to_temp, S3Storage.mkstemp, set_redis. cbn.
  destruct fault as [e|].
  - destruct (S3Storage.is_ClientError e); reflexivity.
  - destruct (bk !! _); reflexivity.
Qed.

Lemma stage_and_scan_set_redis cfg file_id filename r (w : World) :
  stage_and_scan cfg file_id filename (set_redis r w)
  = (fst (stage_and_scan cfg file_id filename w),
     set_redis r (snd (stage_and_scan cfg file_id filename w))).
Proof.
  unfold stage_and_scan.
  destruct (String.eqb (storage_type cfg) "s3").
  - rewrite download_file_to_temp_set_redis.
    destruct (S3Storage.download_file_to_temp file_id filename w) as [[e|[p|]] w1];
      cbn [fst snd]; try reflexivity.
    rewrite scan_file_set_redis.
    destruct (ClamAVScanner.scan_file p w1); reflexivity.
  - replace (fs (set_redis r w)) with (fs w) by (destruct w; reflexivity).
    destruct (negb _); [reflexivity|].
    rewrite scan_file_set_redis.
    destruct (ClamAVScanner.scan_file _ w); reflexivity.
Qed.

Lemma cleanup_set_redis temp r (w : World) :
  cleanup temp (set_redis r w) = set_redis r (cleanup temp w).
Proof.
  destruct w as [t up rd files fault bk cu cn sl cl].
  unfold cleanup, set_redis. cbn.
  destruct temp as [p|]; [|reflexivity].
  destruct (path_exists p files); reflexivity.
Qed.

(** The whole task commutes with any change of the record store: its outcome
    does not depend on the records, and it hands the records back as found. *)
Lemma scan_task_set_redis cfg file_id filename r (w : World) :
  scan_file_for_viruses cfg file_id filename (set_redis r w)
  = (fst (scan_file_for_viruses cfg file_id filename w),
     set_redis r (snd (scan_file_for_viruses cfg file_id filename w))).
Proof.
  unfold scan_file_for_viruses.
  replace (update_state file_id "SCANNING" (set_redis r w))
    with (set_redis r (update_state file_id "SCANNING" w))
    by (destruct w; reflexivity).
  rewrite stage_and_scan_set_redis.
  replace (utcnow (set_redis r w)) with (utcnow w) by (destruct w; reflexivity).
  destruct (stage_and_scan cfg file_id filename (update_state file_id "SCANNING" w))
    as [[outcome temp] w1].
  cbn [fst snd]. rewrite cleanup_set_redis.
  replace (utcnow (set_redis r w1)) with (utcnow w1) by (destruct w1; reflexivity).
  reflexivity.
Qed.

Lemma scan_task_keeps_records cfg file_id filename (w : World) :
  redis (snd (scan_file_for_viruses cfg file_id filename w)) = redis w.
Proof.
  rewrite <- (set_redis_same w) at 1.
  rewrite scan_task_set_redis. cbn [snd].
  destruct (snd (scan_file_for_viruses cfg file_id filename w)); reflexivity.
Qed.

(** C1.  The scan task never writes its outcome into the file's record:
    whatever the outcome, every record, and so the state of the scanned
    file's record, is after the task what it was before.  For the freshly
    uploaded [note.txt] and a daemon that reports no findings the task
    returns a [clean] outcome while the record stays [pending] without a scan
    timestamp. *)
Theorem scan_outcome_not_recorded :
  (forall cfg file_id filename (w : World),
     redis (snd (scan_file_for_viruses cfg file_id filename w)) = redis w
     /\ record_state file_id (snd (scan_file_for_viruses cfg file_id filename w))
        = record_state file_id w)
  /\ vr_status (fst (scan_file_for_viruses settings "f1" "note.txt"
                       (note_world PENDING quiet_clamd))) = CLEAN
  /\ get_file_metadata "f1" (snd (scan_file_for_viruses settings "f1" "note.txt"
                                    (note_world PENDING quiet_clamd)))
     = Some (note_record PENDING)
  /\ md_scan_timestamp (note_record PENDING) = None.
Proof.
  split.
  - intros. unfold record_state. rewrite scan_task_keeps_records. split; reflexivity.
  - split; [vm_compute; reflexivity|].
    split; [|reflexivity].
    unfold get_file_metadata.
    rewrite scan_task_keeps_records.
    replace (redis_up _) with true by (vm_compute; reflexivity).
    vm_compute. reflexivity.
Qed.

(** ** The state of a record *)

Lemma append_inj_r (p a b : string) : p ++ a = p ++ b -> a = b.
Proof.
  induction p as [|c p IH]; [rewrite !append_nil; trivial|].
  rewrite !append_cons. intros [= H]. exact (IH H).
Qed.

Lemma redis_key_inj (a b : string) : redis_key a = redis_key b -> a = b.
Proof. apply append_inj_r. Qed.

Lemma get_file_metadata_Some file_id (w : World) metadata :
  get_file_metadata file_id w = Some metadata ->
  redis_up w = true /\ redis w !! redis_key file_id = Some metadata.
Proof. unfold get_file_metadata. destruct (redis_up w); [auto | discriminate]. Qed.


Section StateProperties.
Variable mac : string -> string -> gmap string Jose.jvalue -> string.



End StateProperties.



(** ** Repeated invocations of the scan task *)





(** ** Classification of the daemon's replies *)









(** ** Storage backends: [save_file] *)

Lemma local_put_rejects_existing cfg file file_id (w : World) :
  path_exists (LocalStorage.get_file_path cfg file_id (uf_filename file)) (fs w) = true ->
  exists msg,
    LocalStorage.save_file cfg file file_id w = (Raises (Exn FileExistsError msg), w).
Proof.
  intros H. unfold LocalStorage.save_file.
  unfold LocalStorage.get_file_path in H. rewrite H. eauto.
Qed.

Lemma azure_put_rejects_existing cfg file file_id (c : AzureStorage.Container) :
  AzureStorage.azure_fault c = None ->
  is_Some (AzureStorage.blobs c
             !! AzureStorage.get_blob_name file_id (uf_filename file)) ->
  exists msg,
    AzureStorage.save_file cfg file file_id c = (Raises (Exn FileExistsError msg), c).
Proof.
  intros Hf H. unfold AzureStorage.save_file. rewrite Hf.
  unfold AzureStorage.get_blob_name in H.
  rewrite (bool_decide_true _ H). eauto.
Qed.

Lemma s3_put_replaces cfg file file_id (w : World) :
  s3_fault w = None ->
  exists location,
    fst (S3Storage.save_file cfg file file_id w) = Returns location
    /\ bucket (snd (S3Storage.save_file cfg file file_id w))
         !! S3Storage.get_s3_key file_id (uf_filename file)
       = Some (uf_content file).
Proof.
  intros Hf. unfold S3Storage.save_file. rewrite Hf. eexists. split; [reflexivity|].
  destruct w; cbn. unfold S3Storage.get_s3_key. by rewrite lookup_insert_eq.
Qed.


(** ** Storage backends: [delete_file] *)

Lemma local_delete_iff cfg file_id filename (w : World) :
  let path := LocalStorage.get_file_path cfg file_id filename in
  let '(deleted, w') := LocalStorage.delete_file cfg file_id filename w in
  (deleted = true <-> is_Some (fs w !! path))
  /\ fs w' !! path = None.
Proof.
  cbn zeta. unfold LocalStorage.delete_file, path_exists.
  destruct (decide (is_Some (fs w !! LocalStorage.get_file_path cfg file_id filename)))
    as [H|H].
  - rewrite (bool_decide_true _ H). split; [tauto|].
    destruct w; cbn. apply lookup_delete_eq.
  - rewrite (bool_decide_false _ H). split; [split; [discriminate | tauto]|].
    by apply eq_None_not_Some.
Qed.

Lemma azure_delete_iff file_id filename (c : AzureStorage.Container) :
  AzureStorage.azure_fault c = None ->
  let name := AzureStorage.get_blob_name file_id filename in
  let '(deleted, c') := AzureStorage.delete_file file_id filename c in
  (deleted = true <-> is_Some (AzureStorage.blobs c !! name))
  /\ AzureStorage.blobs c' !! name = None.
Proof.
  intros Hf. cbn zeta. unfold AzureStorage.delete_file. rewrite Hf.
  destruct (decide (is_Some (AzureStorage.blobs c
                               !! AzureStorage.get_blob_name file_id filename)))
    as [H|H].
  - rewrite (bool_decide_true _ H). split; [tauto|]. cbn. apply lookup_delete_eq.
  - rewrite (bool_decide_false _ H). split; [split; [discriminate | tauto]|].
    by apply eq_None_not_Some.
Qed.

Lemma s3_delete_always_true file_id filename (w : World) :
  s3_fault w = None ->
  fst (S3Storage.delete_file file_id filename w) = Returns true.
Proof. intros Hf. unfold S3Storage.delete_file. by rewrite Hf. Qed.


(** ** Scratch files *)

Lemma scan_file_fs path (w : World) :
  fs (snd (ClamAVScanner.scan_file path w)) = fs w.
Proof.
  unfold ClamAVScanner.scan_file.
  destruct (ClamAVScanner.connect w) as [e|cd]; [reflexivity|].
  destruct (cd_version cd); [reflexivity|].
  destruct (cd_scan_file cd path); [destruct w; reflexivity|].
  destruct (ClamAVScanner.parse_results _ _); destruct w; reflexivity.
Qed.

(** When the object is fetched, the scratch copy is gone once the task
    returns, whatever the scan made of it. *)
Lemma scratch_released_when_fetched cfg file_id filename (w : World) body :
  storage_type cfg = "s3" ->
  s3_fault w = None ->
  bucket w !! S3Storage.get_s3_key file_id filename = Some body ->
  fs (snd (scan_file_for_viruses cfg file_id filename w)) = fs w.
Proof.
  intros Hs3 Hf Hb.
  unfold scan_file_for_viruses, stage_and_scan. rewrite Hs3. cbn [String.eqb].
  replace (String.eqb "s3" "s3") with true by reflexivity.
  unfold S3Storage.download_file_to_temp, S3Storage.mkstemp.
  destruct w as [t up rd files fault bk cu cn sl cl]. cbn in Hf, Hb. subst fault.
  cbn. rewrite Hb.
  pose proof (scan_file_fs (fresh_string "/tmp/tmp" files)
    (set_fs (<[fresh_string "/tmp/tmp" files := body]>
               (<[fresh_string "/tmp/tmp" files := []]> files))
       (mkWorld t up rd (<[fresh_string "/tmp/tmp" files := []]> files) None bk cu cn sl
          (UpdateState file_id "SCANNING" :: cl)))) as Hfs.
  cbn in Hfs.
  destruct (ClamAVScanner.scan_file _ _) as [outcome w2]. cbn [snd] in Hfs.
  cbn [snd cleanup]. rewrite Hfs. unfold path_exists.
  rewrite bool_decide_true by (rewrite lookup_insert_eq; eauto).
  destruct w2; cbn in *. subst.
  rewrite !delete_insert_eq. apply delete_id, fresh_string_fresh.
Qed.


(** * Further properties of the code *)

(** ** The shape of a file extension *)

Lemma split_nonempty (sep : ascii) (s : string) : Str.split sep s <> [].
Proof.
  induction s as [|c r IH]; cbn [Str.split]; [discriminate|].
  destruct (Ascii.eqb c sep); [discriminate|].
  destruct (Str.split sep r); discriminate.
Qed.

Lemma split_parts_no_sep (sep : ascii) (s part : string) :
  In part (Str.split sep s) -> Str.mem sep part = false.
Proof.
  revert part. induction s as [|c r IH]; cbn [Str.split]; intros part.
  - intros [<- | []]. reflexivity.
  - destruct (Ascii.eqb c sep) eqn:E.
    + intros [<- | H]; [reflexivity | by apply IH].
    + destruct (Str.split sep r) as [|h t] eqn:Hs.
      * by destruct (split_nonempty sep r).
      * intros [<- | H].
        -- cbn [Str.mem]. rewrite E. apply IH. by left.
        -- apply IH. by right.
Qed.

Lemma last_in_or_default {A} (l : list A) (d : A) : List.last l d = d \/ In (List.last l d) l.
Proof.
  induction l as [|a l IH]; [by left|].
  destruct l as [|b l]; [right; by left|].
  destruct IH as [IH | IH]; [left | right; right]; exact IH.
Qed.

Lemma name_no_slash (p : string) : Str.mem "/" (Path.name p) = false.
Proof.
  unfold Path.name.
  destruct (last_in_or_default (Path.parts p) "") as [-> | H]; [reflexivity|].
  unfold Path.parts in H at 2. apply filter_In in H as [H _].
  by apply split_parts_no_sep in H.
Qed.

Lemma mem_drop (c : ascii) (n : nat) (s : string) :
  Str.mem c s = false -> Str.mem c (Str.drop n s) = false.
Proof.
  revert s. induction n as [|n IH]; intros s; [trivial|].
  destruct s as [|d r]; cbn [Str.drop Str.mem]; [trivial|].
  intros H. apply orb_false_iff in H as [_ H]. by apply IH.
Qed.

Lemma suffix_no_slash (p : string) : Str.mem "/" (Path.suffix p) = false.
Proof.
  unfold Path.suffix. destruct (Str.rfind_dot _); [|reflexivity].
  destruct (_ && _); [|reflexivity].
  apply mem_drop, name_no_slash.
Qed.

Lemma lower_ascii_slash (c : ascii) :
  Ascii.eqb (Str.lower_ascii c) "/" = Ascii.eqb c "/".
Proof. destruct c as [[] [] [] [] [] [] [] []]; reflexivity. Qed.

Lemma lower_ascii_dot (c : ascii) :
  Ascii.eqb (Str.lower_ascii c) "." = Ascii.eqb c ".".
Proof. destruct c as [[] [] [] [] [] [] [] []]; reflexivity. Qed.

Lemma lower_ascii_idem (c : ascii) :
  Str.lower_ascii (Str.lower_ascii c) = Str.lower_ascii c.
Proof. destruct c as [[] [] [] [] [] [] [] []]; reflexivity. Qed.

Lemma mem_slash_lower (s : string) : Str.mem "/" (Str.lower s) = Str.mem "/" s.
Proof.
  induction s as [|c r IH]; [reflexivity|].
  cbn [Str.lower Str.mem]. by rewrite lower_ascii_slash, IH.
Qed.

Lemma mem_dot_lower (s : string) : Str.mem "." (Str.lower s) = Str.mem "." s.
Proof.
  induction s as [|c r IH]; [reflexivity|].
  cbn [Str.lower Str.mem]. by rewrite lower_ascii_dot, IH.
Qed.

Lemma lower_idem (s : string) : Str.lower (Str.lower s) = Str.lower s.
Proof.
  induction s as [|c r IH]; [reflexivity|].
  cbn [Str.lower]. by rewrite lower_ascii_idem, IH.
Qed.

Lemma rfind_dot_None (s : string) : Str.rfind_dot s = None -> Str.mem "." s = false.
Proof.
  induction s as [|c r IH]; [reflexivity|].
  cbn [Str.rfind_dot Str.mem].
  destruct (Str.rfind_dot r); [discriminate|].
  destruct (Ascii.eqb c "."); [discriminate|]. intros _. by apply IH.
Qed.

Lemma rfind_dot_Some (s : string) (i : nat) :
  Str.rfind_dot s = Some i ->
  exists x, Str.drop i s = String "." x
            /\ Str.mem "." x = false
            /\ String.length s = (i + S (String.length x))%nat.
Proof.
  revert i. induction s as [|c r IH]; intros i; [discriminate|].
  cbn [Str.rfind_dot].
  destruct (Str.rfind_dot r) as [j|] eqn:Hr.
  - intros [= <-]. destruct (IH j eq_refl) as (x & Hd & Hm & Hl).
    exists x. cbn [Str.drop String.length]. rewrite Hl. auto.
  - destruct (Ascii.eqb c ".") eqn:E; [|discriminate].
    intros [= <-]. apply Ascii.eqb_eq in E. subst c.
    exists r. cbn. split; [reflexivity|]. split; [by apply rfind_dot_None | reflexivity].
Qed.

Lemma suffix_shape (p : string) :
  Path.suffix p = ""
  \/ exists x, Path.suffix p = String "." x /\ x <> "" /\ Str.mem "." x = false.
Proof.
  unfold Path.suffix.
  destruct (Str.rfind_dot (Path.name p)) as [i|] eqn:Hr; [|by left].
  destruct ((0 <? i)%nat && (S i <? String.length (Path.name p))%nat) eqn:Hc; [|by left].
  right. destruct (rfind_dot_Some _ _ Hr) as (x & Hd & Hm & Hl).
  exists x. split; [exact Hd|]. split; [|exact Hm].
  apply andb_true_iff in Hc as [_ Hc]. apply Nat.ltb_lt in Hc.
  intros ->. cbn in Hl. lia.
Qed.

(** X1.  Whatever the uploaded file is called, the extension taken from it is
    free of path separators, already lower case, and either empty or a dot
    followed by a non-empty text without dots; with a file identity free of
    separators the name the backends store under is a single path
    component. *)
Theorem extension_is_a_safe_component (filename file_id : string) :
  let e := get_file_extension filename in
  Str.mem "/" e = false
  /\ Str.lower e = e
  /\ (e = "" \/ exists x, e = String "." x /\ x <> "" /\ Str.mem "." x = false)
  /\ (Str.mem "/" file_id = false ->
      Str.mem "/" (create_secure_filename filename file_id) = false).
Proof.
  cbn zeta. unfold create_secure_filename, get_file_extension.
  assert (Hs : Str.mem "/" (Str.lower (Path.suffix filename)) = false)
    by (rewrite mem_slash_lower; apply suffix_no_slash).
  split; [exact Hs|]. split; [apply lower_idem|]. split.
  - destruct (suffix_shape filename) as [-> | (x & -> & Hx & Hm)]; [by left|].
    right. exists (Str.lower x). split; [reflexivity|]. split.
    + destruct x; [congruence | discriminate].
    + by rewrite mem_dot_lower.
  - intros H. by rewrite mem_append, H, Hs.
Qed.

Lemma extension_is_a_safe_component_witness :
  Str.mem "/" (create_secure_filename "../../etc/passwd.TXT/" "f1") = false.
Proof.
  destruct (extension_is_a_safe_component "../../etc/passwd.TXT/" "f1")
    as (_ & _ & _ & H).
  apply H. reflexivity.
Defined.

(** ** The state enumeration *)


(** ** The metadata store *)

(** X3.  A record saved under a file identity is what a later read of that
    identity returns, and the records of all other identities read as
    before; with Redis unreachable the save reports [False], changes
    nothing, and every read gives [None]. *)
Theorem metadata_save_then_get (file_id other : string) (metadata : Metadata) (w : World) :
  (redis_up w = true ->
     fst (save_file_metadata file_id metadata w) = true
     /\ get_file_metadata file_id (snd (save_file_metadata file_id metadata w))
        = Some metadata
     /\ (other <> file_id ->
         get_file_metadata other (snd (save_file_metadata file_id metadata w))
         = get_file_metadata other w))
  /\ (redis_up w = false ->
      save_file_metadata file_id metadata w = (false, w)
      /\ get_file_metadata other w = None).
Proof.
  unfold save_file_metadata, get_file_metadata. split; intros Hup; rewrite Hup.
  - destruct w; cbn in *. rewrite Hup.
    split; [reflexivity|]. split; [apply lookup_insert_eq|].
    intros Hne. apply lookup_insert_ne. intros E. apply redis_key_inj in E. congruence.
  - split; reflexivity.
Qed.

Lemma metadata_save_then_get_witness :
  get_file_metadata "f2" (snd (save_file_metadata "f2" (note_record CLEAN)
                                 (note_world PENDING quiet_clamd)))
  = Some (note_record CLEAN)
  /\ get_file_metadata "f1" (snd (save_file_metadata "f2" (note_record CLEAN)
                                    (note_world PENDING quiet_clamd)))
     = get_file_metadata "f1" (note_world PENDING quiet_clamd).
Proof.
  destruct (metadata_save_then_get "f2" "f1" (note_record CLEAN)
              (note_world PENDING quiet_clamd)) as [H _].
  destruct (H eq_refl) as (_ & Hget & Hother).
  split; [exact Hget | apply Hother; discriminate].
Defined.

(** ** Uploads *)

Lemma path_exists_false (p : string) (files : gmap string bytes) :
  path_exists p files = false <-> files !! p = None.
Proof.
  unfold path_exists. rewrite bool_decide_eq_false, <- eq_None_not_Some. tauto.
Qed.

Lemma path_exists_true (p : string) (files : gmap string bytes) :
  path_exists p files = true <-> is_Some (files !! p).
Proof. unfold path_exists. by rewrite bool_decide_eq_true. Qed.

Lemma gtb_false (n m : Z) : n <= m -> (n >? m) = false.
Proof. intros H. rewrite Z.gtb_ltb. apply Z.ltb_ge. lia. Qed.

Lemma gtb_true (n m : Z) : m < n -> (n >? m) = true.
Proof. intros H. rewrite Z.gtb_ltb. apply Z.ltb_lt. lia. Qed.

(** X4.  An upload that passes validation, on local storage with a free
    target and Redis reachable, answers with state [pending]; afterwards the
    bytes are stored under the target path, the record of the new identity is
    [pending] with no scan result, no scan timestamp and a download count of
    zero, and one scan task has been submitted for it. *)
Theorem upload_creates_pending_record
    (cfg : Settings) (file_id task_id : string) (file : UploadFile) (w : World) :
  let size := Z.of_nat (length (uf_content file)) in
  let path := LocalStorage.get_file_path cfg file_id (uf_filename file) in
  storage_is_s3 cfg = false ->
  uf_filename file <> "" ->
  is_allowed_file cfg (uf_filename file) = true ->
  0 < size <= max_file_size cfg ->
  fs w !! path = None ->
  redis_up w = true ->
  let w' := snd (upload_file cfg file_id task_id file w) in
  fst (upload_file cfg file_id task_id file w)
  = FileUploadResponse file_id (uf_filename file) size PENDING task_id
  /\ fs w' = <[path := uf_content file]> (fs w)
  /\ get_file_metadata file_id w'
     = Some (new_metadata file_id file size (utcnow w) path (Some task_id))
  /\ record_state file_id w' = Some (ScanStatus_value PENDING)
  /\ (forall m, get_file_metadata file_id w' = Some m ->
        md_download_count m = 0 /\ md_scan_result m = None /\ md_scan_timestamp m = None)
  /\ celery_log w' = Delay task_id file_id (uf_filename file) :: celery_log w
  /\ scan_log w' = scan_log w.
Proof.
  intros size path Hs3 Hname Hok Hsize Hfree Hup.
  assert (Hrun : upload_file cfg file_id task_id file w
    = (FileUploadResponse file_id (uf_filename file) size PENDING task_id,
       set_redis (<[redis_key file_id :=
                      new_metadata file_id file size (utcnow w) path (Some task_id)]>
                    (<[redis_key file_id :=
                         new_metadata file_id file size (utcnow w) path None]> (redis w)))
         (set_celery_log (Delay task_id file_id (uf_filename file) :: celery_log w)
            (set_fs (<[path := uf_content file]> (fs w)) w)))).
  { unfold upload_file. apply String.eqb_neq in Hname. rewrite Hname, Hok.
    cbn [negb]. fold size.
    rewrite gtb_false by lia.
    replace (size =? 0) with false by (symmetry; apply Z.eqb_neq; lia).
    unfold storage_save_file. rewrite Hs3. unfold LocalStorage.save_file.
    fold (LocalStorage.get_file_path cfg file_id (uf_filename file)). fold path.
    apply path_exists_false in Hfree. rewrite Hfree.
    unfold save_file_metadata. destruct w; cbn in *. rewrite Hup. reflexivity. }
  cbn zeta. rewrite Hrun. cbn [fst snd].
  assert (Hget : get_file_metadata file_id
            (set_redis (<[redis_key file_id :=
                      new_metadata file_id file size (utcnow w) path (Some task_id)]>
                    (<[redis_key file_id :=
                         new_metadata file_id file size (utcnow w) path None]> (redis w)))
         (set_celery_log (Delay task_id file_id (uf_filename file) :: celery_log w)
            (set_fs (<[path := uf_content file]> (fs w)) w)))
          = Some (new_metadata file_id file size (utcnow w) path (Some task_id))).
  { unfold get_file_metadata. destruct w; cbn in *. rewrite Hup. apply lookup_insert_eq. }
  split; [reflexivity|]. split; [by destruct w|]. split; [exact Hget|].
  split.
  { unfold record_state. destruct w; cbn. by rewrite lookup_insert_eq. }
  split.
  { intros m Hm. rewrite Hget in Hm. injection Hm as <-. by cbn. }
  split; by destruct w.
Qed.

Lemma upload_creates_pending_record_witness :
  fst (upload_file settings "f2" "t2" note_txt (note_world CLEAN quiet_clamd))
  = FileUploadResponse "f2" "note.txt" 2 PENDING "t2"
  /\ record_state "f2" (snd (upload_file settings "f2" "t2" note_txt
                               (note_world CLEAN quiet_clamd)))
     = Some "pending".
Proof.
  assert (Hsize : 0 < Z.of_nat (length (uf_content note_txt)) <= max_file_size settings)
    by (split; [reflexivity | discriminate]).
  assert (Hname : uf_filename note_txt <> "") by discriminate.
  destruct (upload_creates_pending_record settings "f2" "t2" note_txt
              (note_world CLEAN quiet_clamd) eq_refl Hname eq_refl Hsize eq_refl eq_refl)
    as (H1 & _ & _ & H2 & _).
  split; [exact H1 | exact H2].
Defined.

(** X5.  Whenever an upload is answered 400, 413 or 409 nothing has been
    stored, recorded or submitted: the world is as it was.  An empty file
    name or an empty body is answered 400, and a body above the size limit
    413. *)
Theorem rejected_upload_changes_nothing
    (cfg : Settings) (file_id task_id : string) (file : UploadFile) (w : World) :
  let size := Z.of_nat (length (uf_content file)) in
  (forall code detail,
     fst (upload_file cfg file_id task_id file w) = HTTPException code detail ->
     code = 400 \/ code = 413 \/ code = 409 ->
     snd (upload_file cfg file_id task_id file w) = w)
  /\ (uf_filename file = "" ->
      upload_file cfg file_id task_id file w = (HTTPException 400 "No filename provided", w))
  /\ (uf_filename file <> "" -> is_allowed_file cfg (uf_filename file) = true ->
      max_file_size cfg < size ->
      exists detail, upload_file cfg file_id task_id file w = (HTTPException 413 detail, w))
  /\ (uf_filename file <> "" -> is_allowed_file cfg (uf_filename file) = true ->
      0 <= max_file_size cfg -> size = 0 ->
      upload_file cfg file_id task_id file w
      = (HTTPException 400 "Empty file not allowed", w)).
Proof.
  cbn zeta. split; [|split; [|split]].
  - intros code detail. unfold upload_file.
    destruct (String.eqb (uf_filename file) ""); [reflexivity|].
    destruct (negb (is_allowed_file cfg (uf_filename file))); [reflexivity|].
    destruct (_ >? _); [reflexivity|].
    destruct (_ =? 0); [reflexivity|].
    unfold storage_save_file.
    destruct (storage_is_s3 cfg).
    + unfold S3Storage.save_file. destruct (s3_fault w) as [e|].
      * destruct (S3Storage.is_ClientError e); cbn.
        -- intros [= <- _] H. lia.
        -- destruct (bool_decide (exn_cls e = FileExistsError)); [reflexivity|].
           cbn. intros [= <- _] H. lia.
      * cbn. destruct (save_file_metadata _ _ _) as [[|] w2]; cbn.
        -- destruct (save_file_metadata _ _ _); discriminate.
        -- intros [= <- _] H. lia.
    + unfold LocalStorage.save_file. destruct (path_exists _ _); cbn.
      * reflexivity.
      * destruct (save_file_metadata _ _ _) as [[|] w2]; cbn.
        -- destruct (save_file_metadata _ _ _); discriminate.
        -- intros [= <- _] H. lia.
  - intros H. unfold upload_file. rewrite H. reflexivity.
  - intros Hname Hok Hbig. unfold upload_file.
    apply String.eqb_neq in Hname. rewrite Hname, Hok. cbn [negb].
    rewrite gtb_true by lia.
    eexists. reflexivity.
  - intros Hname Hok Hmax Hzero. unfold upload_file.
    apply String.eqb_neq in Hname. rewrite Hname, Hok, Hzero. cbn [negb].
    rewrite gtb_false by lia.
    reflexivity.
Qed.

Lemma rejected_upload_changes_nothing_witness :
  snd (upload_file settings "f1" "t2" note_txt (note_world CLEAN quiet_clamd))
  = note_world CLEAN quiet_clamd.
Proof.
  destruct (rejected_upload_changes_nothing settings "f1" "t2" note_txt
              (note_world CLEAN quiet_clamd)) as [H _].
  apply (H 409 "File already exists"); [vm_compute; reflexivity | auto].
Defined.

(** X6.  With Redis unreachable an otherwise valid upload on local storage is
    answered 500, yet the bytes written before the record was attempted stay
    in storage; no record exists and no scan task was submitted. *)
Theorem upload_without_redis_leaves_bytes
    (cfg : Settings) (file_id task_id : string) (file : UploadFile) (w : World) :
  let size := Z.of_nat (length (uf_content file)) in
  let path := LocalStorage.get_file_path cfg file_id (uf_filename file) in
  storage_is_s3 cfg = false ->
  uf_filename file <> "" ->
  is_allowed_file cfg (uf_filename file) = true ->
  0 < size <= max_file_size cfg ->
  fs w !! path = None ->
  redis_up w = false ->
  (exists detail,
     upload_file cfg file_id task_id file w
     = (HTTPException 500 detail, set_fs (<[path := uf_content file]> (fs w)) w))
  /\ get_file_metadata file_id (snd (upload_file cfg file_id task_id file w)) = None
  /\ fs (snd (upload_file cfg file_id task_id file w)) !! path = Some (uf_content file)
  /\ celery_log (snd (upload_file cfg file_id task_id file w)) = celery_log w.
Proof.
  intros size path Hs3 Hname Hok Hsize Hfree Hup.
  assert (Hrun : upload_file cfg file_id task_id file w
    = (HTTPException 500 "Failed to upload file: Failed to save file metadata",
       set_fs (<[path := uf_content file]> (fs w)) w)).
  { unfold upload_file. apply String.eqb_neq in Hname. rewrite Hname, Hok.
    cbn [negb]. fold size.
    rewrite gtb_false by lia.
    replace (size =? 0) with false by (symmetry; apply Z.eqb_neq; lia).
    unfold storage_save_file. rewrite Hs3. unfold LocalStorage.save_file.
    fold (LocalStorage.get_file_path cfg file_id (uf_filename file)). fold path.
    apply path_exists_false in Hfree. rewrite Hfree.
    unfold save_file_metadata. destruct w; cbn in *. rewrite Hup. reflexivity. }
  rewrite Hrun. cbn [snd]. split; [eexists; reflexivity|].
  unfold get_file_metadata. destruct w; cbn in *. rewrite Hup.
  split; [reflexivity|]. split; [apply lookup_insert_eq | reflexivity].
Qed.

Lemma upload_without_redis_leaves_bytes_witness :
  fs (snd (upload_file settings "f2" "t2" note_txt
             (mkWorld 1000 false ∅ ∅ None ∅ dead_clamd quiet_clamd [] [])))
    !! "uploads/f2.txt" = Some (uf_content note_txt).
Proof.
  assert (Hsize : 0 < Z.of_nat (length (uf_content note_txt)) <= max_file_size settings)
    by (split; [reflexivity | discriminate]).
  assert (Hname : uf_filename note_txt <> "") by discriminate.
  assert (Hfree : fs (mkWorld 1000 false ∅ ∅ None ∅ dead_clamd quiet_clamd [] [])
                    !! LocalStorage.get_file_path settings "f2" (uf_filename note_txt)
                  = None) by (vm_compute; reflexivity).
  destruct (upload_without_redis_leaves_bytes settings "f2" "t2" note_txt
              (mkWorld 1000 false ∅ ∅ None ∅ dead_clamd quiet_clamd [] [])
              eq_refl Hname eq_refl Hsize Hfree eq_refl)
    as (_ & _ & H & _).
  exact H.
Defined.

(** ** Downloads *)

Section DownloadProperties.
Variable mac : string -> string -> gmap string Jose.jvalue -> string.

Lemma serve_accounting cfg fid metadata (w : World) :
  redis_up w = true ->
  (releases_bytes (fst (serve cfg fid metadata w)) = false ->
   snd (serve cfg fid metadata w) = w)
  /\ (releases_bytes (fst (serve cfg fid metadata w)) = true ->
      snd (serve cfg fid metadata w)
      = set_redis (<[redis_key fid := count_download metadata (utcnow w)]> (redis w)) w).
Proof.
  intros Hup. unfold serve, save_file_metadata. rewrite Hup.
  destruct (storage_is_s3 cfg).
  - destruct (S3Storage.generate_presigned_url _ _ _ _ _) as [e|[url|]]; cbn;
      split; try reflexivity; discriminate.
  - destruct (LocalStorage.get_download_path _ _ _ _); cbn;
      split; try reflexivity; discriminate.
Qed.

(** X7.  A download that releases no bytes leaves the world as it was.  One
    that does release bytes rewrites exactly one record, the one of the file
    the token names: its download count goes up by one, its last-download
    time becomes the current time, and its state, scan result and other
    fields stay. *)
Theorem download_counts_once (cfg : Settings) (token : Jose.token) (w : World) :
  let r := fst (download_file mac cfg token w) in
  let w' := snd (download_file mac cfg token w) in
  (releases_bytes r = false -> w' = w)
  /\ (releases_bytes r = true ->
      exists v m,
        verify_download_token mac cfg (utcnow w) token = Returns (Some v)
        /\ get_file_metadata (format v) w = Some m
        /\ w' = set_redis (<[redis_key (format v) := count_download m (utcnow w)]>
                             (redis w)) w
        /\ md_download_count (count_download m (utcnow w)) = md_download_count m + 1
        /\ md_last_downloaded (count_download m (utcnow w)) = Some (utcnow w)
        /\ md_scan_status (count_download m (utcnow w)) = md_scan_status m
        /\ md_scan_result (count_download m (utcnow w)) = md_scan_result m).
Proof.
  cbn zeta. unfold download_file.
  destruct (verify_download_token mac cfg (utcnow w) token) as [e|[v|]];
    try (split; [reflexivity | discriminate]).
  destruct (negb (truthy v)); [split; [reflexivity | discriminate]|].
  destruct (get_file_metadata (format v) w) as [m|] eqn:Hm;
    [|split; [reflexivity | discriminate]].
  destruct (ScanStatus_of_value _); [split; [reflexivity | discriminate]|].
  destruct (negb _); [split; [reflexivity | discriminate]|].
  pose proof Hm as Hup. apply get_file_metadata_Some in Hup as [Hup _].
  destruct (serve_accounting cfg (format v) m w Hup) as [Hno Hyes].
  split; [exact Hno|].
  intros H. exists v, m.
  split; [reflexivity|]. split; [exact Hm|]. split; [by apply Hyes|].
  repeat split.
Qed.

(** X8.  The link handed out for a clean file on local storage carries a
    token that, redeemed for the same settings at any time up to the
    advertised expiry while the record is still clean and the bytes are
    still stored, is answered with the stored file; redeemed later it is
    answered 401. *)
Theorem link_then_download
    (cfg : Settings) (file_id : string) (token : Jose.token) (expires_at : Z)
    (w w' : World) (m : Metadata) :
  storage_is_s3 cfg = false ->
  file_id <> "" ->
  generate_download_link mac cfg file_id w = DownloadLinkResponse token expires_at ->
  get_file_metadata file_id w' = Some m ->
  md_scan_status m = ScanStatus_value CLEAN ->
  is_Some (fs w' !! LocalStorage.get_file_path cfg file_id (md_filename m)) ->
  expires_at = utcnow w + download_link_expire_hours cfg * 3600
  /\ (utcnow w' <= expires_at ->
      fst (download_file mac cfg token w')
      = FileResponse (LocalStorage.get_file_path cfg file_id (md_filename m))
          (md_filename m) (md_content_type m))
  /\ (expires_at < utcnow w' ->
      download_file mac cfg token w'
      = (HTTPException 401 "Invalid or expired download token", w')).
Proof.
  intros Hs3 Hne Hlink Hm Hclean Hbytes.
  assert (Htok : token = Jose.encode mac (download_claims file_id
                                            (utcnow w + download_link_expire_hours cfg * 3600))
                           (secret_key cfg) "HS256"
                 /\ expires_at = utcnow w + download_link_expire_hours cfg * 3600).
  { revert Hlink. unfold generate_download_link.
    destruct (get_file_metadata file_id w); [|discriminate].
    destruct (ScanStatus_of_value _) as [e|s]; [discriminate|].
    destruct (negb _).
    - destruct (bool_decide (s = INFECTED)); [discriminate|].
      destruct (bool_decide _); discriminate.
    - destruct (storage_file_exists _ _ _ _) as [e|[|]]; try discriminate.
      intros [= <- <-]. split; reflexivity. }
  destruct Htok as [-> ->]. split; [reflexivity|].
  split; intros Ht; unfold download_file; rewrite verify_signed.
  - replace (_ <? utcnow w') with false by (symmetry; apply Z.ltb_ge; lia).
    cbn [truthy format]. apply String.eqb_neq in Hne. rewrite Hne. cbn [negb].
    rewrite Hm, Hclean. cbn.
    unfold serve. rewrite Hs3. unfold LocalStorage.get_download_path.
    apply path_exists_true in Hbytes. rewrite Hbytes.
    destruct (save_file_metadata _ _ _). reflexivity.
  - replace (_ <? utcnow w') with true by (symmetry; apply Z.ltb_lt; lia).
    reflexivity.
Qed.
End DownloadProperties.

Lemma link_then_download_witness :
  fst (download_file example_mac settings
         (generate_download_token example_mac settings 1000 "f1" None)
         (note_world CLEAN quiet_clamd))
  = FileResponse "uploads/f1.txt" "note.txt" "text/plain".
Proof.
  assert (Hne : "f1" <> "") by discriminate.
  assert (Hlink : generate_download_link example_mac settings "f1"
                    (note_world CLEAN quiet_clamd)
                  = DownloadLinkResponse
                      (generate_download_token example_mac settings 1000 "f1" None)
                      87400) by (vm_compute; reflexivity).
  assert (Hbytes : is_Some (fs (note_world CLEAN quiet_clamd)
                              !! LocalStorage.get_file_path settings "f1"
                                   (md_filename (note_record CLEAN))))
    by (vm_compute; eauto).
  assert (Hm : get_file_metadata "f1" (note_world CLEAN quiet_clamd)
               = Some (note_record CLEAN)) by (vm_compute; reflexivity).
  destruct (link_then_download example_mac settings "f1" _ _
              (note_world CLEAN quiet_clamd) (note_world CLEAN quiet_clamd)
              (note_record CLEAN) eq_refl Hne Hlink Hm eq_refl Hbytes)
    as (_ & Hok & _).
  rewrite Hok; [reflexivity|]. vm_compute. discriminate.
Defined.

Lemma download_counts_once_witness :
  snd (download_file example_mac settings (Jose.Malformed "not-a-token")
         (note_world INFECTED quiet_clamd))
  = note_world INFECTED quiet_clamd.
Proof.
  destruct (download_counts_once example_mac settings (Jose.Malformed "not-a-token")
              (note_world INFECTED quiet_clamd)) as [H _].
  apply H. reflexivity.
Defined.

(** ** Deletion, status and listing *)

Section DeleteProperties.
Variable mac : string -> string -> gmap string Jose.jvalue -> string.

(** X9.  Deleting a file that has a record, on local storage, removes the
    record and the stored bytes and touches no other record or file; the
    answer says the file was deleted exactly when bytes were there to
    remove.  A download token for the file, still valid in itself, is
    answered 404 from then on. *)
Theorem delete_removes_record_and_bytes
    (cfg : Settings) (file_id : string) (m : Metadata) (w : World) :
  storage_is_s3 cfg = false ->
  get_file_metadata file_id w = Some m ->
  let path := LocalStorage.get_file_path cfg file_id (md_filename m) in
  let w' := snd (delete_file cfg file_id w) in
  (exists message,
     fst (delete_file cfg file_id w) = DeletedResponse message file_id
     /\ (message = "File deleted successfully" <-> is_Some (fs w !! path)))
  /\ get_file_metadata file_id w' = None
  /\ fs w' !! path = None
  /\ (forall other, other <> file_id ->
        get_file_metadata other w' = get_file_metadata other w)
  /\ (forall p, p <> path -> fs w' !! p = fs w !! p)
  /\ (forall token,
        verify_download_token mac cfg (utcnow w) token
        = Returns (Some (Jose.JStr file_id)) ->
        file_id <> "" ->
        download_file mac cfg token w' = (HTTPException 404 "File not found", w')).
Proof.
  intros Hs3 Hm path w'.
  pose proof Hm as Hup. apply get_file_metadata_Some in Hup as [Hup _].
  assert (Hrun : delete_file cfg file_id w
    = (DeletedResponse
         (if path_exists path (fs w) then "File deleted successfully"
          else "File metadata deleted (file may not have existed in storage)") file_id,
       set_redis (delete (redis_key file_id) (redis w))
         (if path_exists path (fs w) then set_fs (delete path (fs w)) w else w))).
  { unfold delete_file, storage_delete_file, LocalStorage.delete_file.
    rewrite Hm, Hs3. fold path.
    destruct (path_exists path (fs w)); destruct w; reflexivity. }
  assert (Hmd : forall other, get_file_metadata other w'
                  = if decide (other = file_id) then None else get_file_metadata other w).
  { intros other. unfold w', get_file_metadata. rewrite Hrun. cbn [snd].
    replace (redis_up (set_redis _ _)) with true
      by (destruct (path_exists path (fs w)); destruct w; exact (eq_sym Hup)).
    rewrite Hup.
    replace (redis (set_redis (delete (redis_key file_id) (redis w))
                      (if path_exists path (fs w) then set_fs (delete path (fs w)) w else w)))
      with (delete (redis_key file_id) (redis w)) by reflexivity.
    destruct (decide (other = file_id)) as [-> | Hne]; [apply lookup_delete_eq|].
    apply lookup_delete_ne. intros E. apply redis_key_inj in E. congruence. }
  assert (Hfs : fs w' = if path_exists path (fs w) then delete path (fs w) else fs w).
  { unfold w'. rewrite Hrun. cbn [snd].
    destruct (path_exists path (fs w)); destruct w; reflexivity. }
  split.
  { eexists. rewrite Hrun. split; [reflexivity|].
    rewrite <- path_exists_true. destruct (path_exists path (fs w)); split;
      (reflexivity || discriminate). }
  split; [rewrite Hmd; by rewrite decide_True|].
  split.
  { rewrite Hfs. destruct (path_exists path (fs w)) eqn:E;
      [apply lookup_delete_eq | by apply path_exists_false]. }
  split; [intros other Hne; rewrite Hmd; by rewrite decide_False|].
  split.
  { intros p Hne. rewrite Hfs.
    destruct (path_exists path (fs w)); [by apply lookup_delete_ne | reflexivity]. }
  intros token Hv Hne. unfold download_file.
  replace (utcnow w') with (utcnow w)
    by (unfold w'; rewrite Hrun; destruct (path_exists path (fs w)); by destruct w).
  rewrite Hv. cbn [truthy format].
  apply String.eqb_neq in Hne. rewrite Hne. cbn [negb].
  rewrite Hmd. by rewrite decide_True.
Qed.
End DeleteProperties.

Lemma delete_removes_record_and_bytes_witness :
  get_file_metadata "f1" (snd (delete_file settings "f1" (note_world CLEAN quiet_clamd)))
  = None
  /\ fs (snd (delete_file settings "f1" (note_world CLEAN quiet_clamd)))
       !! "uploads/f1.txt" = None.
Proof.
  assert (Hm : get_file_metadata "f1" (note_world CLEAN quiet_clamd)
               = Some (note_record CLEAN)) by (vm_compute; reflexivity).
  destruct (delete_removes_record_and_bytes example_mac settings "f1"
              (note_record CLEAN) (note_world CLEAN quiet_clamd) eq_refl Hm)
    as (_ & H1 & H2 & _).
  split; [exact H1 | exact H2].
Defined.

(** X10.  For an identity without a record, and for every identity while
    Redis is unreachable, the status, download-link and delete operations all
    answer 404 and change nothing. *)
Theorem unknown_file_is_not_found
    (mac : string -> string -> gmap string Jose.jvalue -> string)
    (cfg : Settings) (file_id : string) (w : World) :
  redis_up w = false \/ redis w !! redis_key file_id = None ->
  get_file_status file_id w = StatusException 404 "File not found"
  /\ generate_download_link mac cfg file_id w = HTTPException 404 "File not found"
  /\ delete_file cfg file_id w = (HTTPException 404 "File not found", w).
Proof.
  intros H.
  assert (Hm : get_file_metadata file_id w = None).
  { unfold get_file_metadata. destruct H as [-> | H]; [reflexivity|].
    by destruct (redis_up w). }
  unfold get_file_status, generate_download_link, delete_file. by rewrite Hm.
Qed.

Lemma unknown_file_is_not_found_witness :
  get_file_status "f9" (note_world CLEAN quiet_clamd)
  = StatusException 404 "File not found".
Proof.
  apply (unknown_file_is_not_found example_mac settings "f9"
           (note_world CLEAN quiet_clamd)).
  right. vm_compute. reflexivity.
Defined.

(** X11.  Once [update_file_scan_result] has stored an outcome on an existing
    record, the status operation reports that outcome: its status with the
    matching message, the outcome itself and its timestamp, next to the
    record's unchanged name, size and download count. *)
Theorem status_reports_stored_outcome
    (file_id : string) (outcome : VirusScanResult) (m : Metadata) (w : World) :
  get_file_metadata file_id w = Some m ->
  get_file_status file_id (snd (update_file_scan_result file_id outcome w))
  = FileStatusResponse
      {| fi_file_id := md_file_id m;
         fi_filename := md_filename m;
         fi_file_size := md_file_size m;
         fi_content_type := md_content_type m;
         fi_upload_timestamp := md_upload_timestamp m;
         fi_scan_status := vr_status outcome;
         fi_scan_result := Some outcome;
         fi_scan_timestamp := Some (vr_scan_timestamp outcome);
         fi_download_count := md_download_count m;
         fi_last_downloaded := md_last_downloaded m |}
      (status_messages (vr_status outcome)).
Proof.
  intros Hm. pose proof Hm as Hup. apply get_file_metadata_Some in Hup as [Hup _].
  unfold update_file_scan_result. rewrite Hm.
  unfold save_file_metadata. rewrite Hup. cbn [snd].
  unfold get_file_status, get_file_metadata.
  replace (redis_up (set_redis _ w)) with true by (by destruct w).
  replace (redis (set_redis _ w) !! redis_key file_id)
    with (Some (with_scan_result outcome m))
    by (destruct w; cbn; by rewrite lookup_insert_eq).
  cbn [with_scan_result md_scan_status]. rewrite ScanStatus_of_value_value.
  reflexivity.
Qed.

Lemma status_reports_stored_outcome_witness :
  exists info,
    get_file_status "f1" (snd (update_file_scan_result "f1" infected_outcome
                                 (note_world PENDING quiet_clamd)))
    = FileStatusResponse info "File contains viruses and is not safe to download."
    /\ fi_scan_status info = INFECTED.
Proof.
  eexists. split.
  - apply (status_reports_stored_outcome "f1" infected_outcome (note_record PENDING)).
    vm_compute. reflexivity.
  - reflexivity.
Defined.

(** X12.  [safe_remove_file] reports [True] exactly when the path existed;
    afterwards the path is gone and every other file is as before, and a
    second call reports [False] and changes nothing. *)
Theorem safe_remove_file_once (file_path : string) (w : World) :
  let '(removed, w') := safe_remove_file file_path w in
  (removed = true <-> is_Some (fs w !! file_path))
  /\ fs w' !! file_path = None
  /\ (forall p, p <> file_path -> fs w' !! p = fs w !! p)
  /\ safe_remove_file file_path w' = (false, w').
Proof.
  unfold safe_remove_file.
  destruct (path_exists file_path (fs w)) eqn:E.
  - assert (Hgone : fs (set_fs (delete file_path (fs w)) w) !! file_path = None)
      by (destruct w; apply lookup_delete_eq).
    split; [by rewrite <- path_exists_true|].
    split; [exact Hgone|].
    split; [intros p Hne; destruct w; by apply lookup_delete_ne|].
    apply path_exists_false in Hgone. by rewrite Hgone.
  - split; [rewrite <- path_exists_true, E; split; discriminate|].
    split; [by apply path_exists_false|].
    split; [reflexivity|]. by rewrite E.
Qed.

Lemma py_slice_nonneg {A} (l : list A) (s k : Z) :
  0 <= s -> 0 <= k ->
  py_slice l s (s + k) = take (Z.to_nat k) (drop (Z.to_nat s) l).
Proof.
  intros Hs Hk. unfold py_slice.
  replace (s <? 0) with false by (symmetry; apply Z.ltb_ge; lia).
  replace (s + k <? 0) with false by (symmetry; apply Z.ltb_ge; lia).
  destruct (Z_lt_le_dec s (Z.of_nat (length l))) as [Hlt | Hge].
  - rewrite (Z.min_l s) by lia.
    destruct (Z_le_gt_dec (s + k) (Z.of_nat (length l))) as [Hle | Hgt].
    + rewrite Z.min_l by lia. f_equal. lia.
    + rewrite Z.min_r by lia.
      rewrite !take_ge; [reflexivity | |]; rewrite length_drop; lia.
  - rewrite !Z.min_r by lia. rewrite Z.sub_diag. cbn [Z.to_nat take].
    rewrite (drop_ge l (Z.to_nat s)) by lia. by rewrite take_nil.
Qed.

Lemma file_keys_present (w : World) (key : string) :
  In key (file_keys w) -> is_Some (redis w !! key).
Proof.
  unfold file_keys. intros H. apply filter_In in H as [H _].
  apply in_map_iff in H as ([k m] & <- & H).
  apply list_elem_of_In, elem_of_map_to_list in H. cbn. eauto.
Qed.

Lemma length_omap_all {A B} (f : A -> option B) (l : list A) :
  (forall x, In x l -> is_Some (f x)) -> length (omap f l) = length l.
Proof.
  induction l as [|a l IH]; intros H; [reflexivity|].
  cbn. destruct (H a (or_introl eq_refl)) as [b ->]. cbn.
  f_equal. apply IH. intros x Hx. apply H. by right.
Qed.

Lemma In_take_drop {A} (l : list A) (n m : nat) (x : A) :
  In x (take n (drop m l)) -> In x l.
Proof.
  intros H. rewrite <- (take_drop m l). apply in_or_app. right.
  rewrite <- (take_drop n (drop m l)). apply in_or_app. by left.
Qed.

(** X13.  With Redis reachable and non-negative [skip] and [limit], the
    listing reports the number of all file records as total whatever the
    page, returns [min(limit, max(0, total - skip))] entries, and two
    consecutive pages put together are the one larger page. *)
Theorem list_files_pages (skip limit : Z) (w : World) :
  redis_up w = true -> 0 <= skip -> 0 <= limit ->
  let total := Z.of_nat (length (file_keys w)) in
  list_files skip limit w = FileList (listed (list_files skip limit w)) total skip limit
  /\ Z.of_nat (length (listed (list_files skip limit w)))
     = Z.min limit (Z.max 0 (total - skip))
  /\ (forall more, 0 <= more ->
        (listed (list_files skip limit w) ++ listed (list_files (skip + limit) more w))%list
        = listed (list_files skip (limit + more) w)).
Proof.
  intros Hup Hs Hl total.
  assert (Hpage : forall s k, 0 <= s -> 0 <= k ->
            list_files s k w
            = FileList (omap (fun key => summary <$> redis w !! key)
                          (take (Z.to_nat k) (drop (Z.to_nat s) (file_keys w))))
                total s k).
  { intros s k H1 H2. unfold list_files. rewrite Hup. cbn [negb].
    by rewrite py_slice_nonneg. }
  split; [rewrite Hpage by lia; reflexivity|].
  split.
  - rewrite Hpage by lia. cbn [listed].
    rewrite length_omap_all.
    + rewrite length_take, length_drop. unfold total. lia.
    + intros key Hin. apply In_take_drop, file_keys_present in Hin as [m ->].
      cbn. eauto.
  - intros more Hm. rewrite !Hpage by lia. cbn [listed].
    rewrite <- omap_app. f_equal.
    replace (Z.to_nat (skip + limit)) with (Z.to_nat skip + Z.to_nat limit)%nat by lia.
    rewrite <- drop_drop, take_take_drop. f_equal. lia.
Qed.

Lemma list_files_pages_witness :
  Z.of_nat (length (listed (list_files 0 50 (note_world CLEAN quiet_clamd)))) = 1
  /\ listed (list_files 5 50 (note_world CLEAN quiet_clamd)) = [].
Proof.
  assert (H0 : (0 <= 0)%Z) by lia. assert (H5 : (0 <= 5)%Z) by lia.
  assert (H50 : (0 <= 50)%Z) by lia.
  destruct (list_files_pages 0 50 (note_world CLEAN quiet_clamd) eq_refl H0 H50)
    as (_ & Hlen & _).
  destruct (list_files_pages 5 50 (note_world CLEAN quiet_clamd) eq_refl H5 H50)
    as (_ & Hlen5 & _).
  split.
  - rewrite Hlen. vm_compute. reflexivity.
  - destruct (listed (list_files 5 50 (note_world CLEAN quiet_clamd))); [reflexivity|].
    exfalso. revert Hlen5. vm_compute. discriminate.
Defined.

(** ** The scan task's outcome *)

Lemma parse_results_shape version_info reply d :
  ClamAVScanner.parse_results version_info reply = Returns d ->
  (sd_status d = CLEAN /\ sd_threats_found d = [])
  \/ (sd_status d = INFECTED /\ exists t, sd_threats_found d = [t]).
Proof.
  destruct reply as [|[|[key [items|s]] more]|ty]; cbn; try discriminate.
  - intros [= <-]. by left.
  - destruct (items !! 1%nat); [|discriminate]. intros [= <-]. right. cbn. eauto.
  - intros [= <-]. right. cbn. eauto.
Qed.

Lemma scan_file_shape path (w : World) d :
  fst (ClamAVScanner.scan_file path w) = Returns d ->
  (sd_status d = CLEAN /\ sd_threats_found d = [])
  \/ (sd_status d = INFECTED /\ exists t, sd_threats_found d = [t]).
Proof.
  unfold ClamAVScanner.scan_file.
  destruct (ClamAVScanner.connect w) as [e0|cd]; [discriminate|].
  destruct (cd_version cd) as [e1|v]; [discriminate|].
  destruct (cd_scan_file cd path) as [e2|reply]; [discriminate|].
  destruct (ClamAVScanner.parse_results v reply) as [e3|d'] eqn:Hp; [discriminate|].
  intros [= <-]. by apply parse_results_shape in Hp.
Qed.

Lemma stage_and_scan_shape cfg file_id filename (w : World) d :
  fst (fst (stage_and_scan cfg file_id filename w)) = Returns d ->
  (sd_status d = CLEAN /\ sd_threats_found d = [])
  \/ (sd_status d = INFECTED /\ exists t, sd_threats_found d = [t]).
Proof.
  unfold stage_and_scan.
  destruct (String.eqb (storage_type cfg) "s3").
  - destruct (S3Storage.download_file_to_temp file_id filename w) as [[e|[p|]] w1];
      try discriminate.
    pose proof (scan_file_shape p w1 d) as H.
    destruct (ClamAVScanner.scan_file p w1). exact H.
  - destruct (negb _); [discriminate|].
    pose proof (scan_file_shape (LocalStorage.get_file_path cfg file_id filename) w d) as H.
    destruct (ClamAVScanner.scan_file _ w). exact H.
Qed.

(** X14.  Whatever happens during a scan task, the outcome it returns is
    well formed: it names the file it was asked to scan, its status is one of
    clean, infected and error, an error message is present exactly for
    error, the threats are the empty list for clean and a single name for
    infected, and the duration is the time from start to the outcome. *)
Theorem scan_outcome_well_formed (cfg : Settings) (file_id filename : string) (w : World) :
  let r := fst (scan_file_for_viruses cfg file_id filename w) in
  vr_file_id r = file_id
  /\ terminal (vr_status r) = true
  /\ (vr_status r = ERROR <-> is_Some (vr_error_message r))
  /\ (vr_status r = CLEAN -> vr_threats_found r = Some [])
  /\ (vr_status r = INFECTED -> exists t, vr_threats_found r = Some [t])
  /\ (vr_status r = ERROR -> vr_threats_found r = None /\ vr_engine_version r = None)
  /\ vr_scan_duration r = vr_scan_timestamp r - utcnow w.
Proof.
  cbn zeta.
  pose proof (stage_and_scan_shape cfg file_id filename
                (update_state file_id "SCANNING" w)) as Hshape.
  unfold scan_file_for_viruses.
  destruct (stage_and_scan cfg file_id filename (update_state file_id "SCANNING" w))
    as [[[e|d] temp] w1]; cbn in *.
  - repeat split; eauto; discriminate.
  - destruct (Hshape d eq_refl) as [[Hs Ht] | [Hs [t Ht]]]; rewrite Hs, Ht.
    + repeat split; try discriminate. intros [x Hx]. discriminate.
    + repeat split; try discriminate; eauto. intros [x Hx]. discriminate.
Qed.

Lemma scan_file_bucket path (w : World) :
  bucket (snd (ClamAVScanner.scan_file path w)) = bucket w.
Proof.
  unfold ClamAVScanner.scan_file.
  destruct (ClamAVScanner.connect w) as [e|cd]; [reflexivity|].
  destruct (cd_version cd); [reflexivity|].
  destruct (cd_scan_file cd path); [destruct w; reflexivity|].
  destruct (ClamAVScanner.parse_results _ _); destruct w; reflexivity.
Qed.

(** What staging and scanning do to the files: nothing, or the scratch file
    under the fresh name. *)
Lemma stage_and_scan_files cfg file_id filename (w : World) :
  let temp_path := fresh_string "/tmp/tmp" (fs w) in
  let w1 := snd (stage_and_scan cfg file_id filename w) in
  bucket w1 = bucket w
  /\ match snd (fst (stage_and_scan cfg file_id filename w)) with
     | None => fs w1 = fs w
               \/ (storage_type cfg = "s3" /\ fs w1 = <[temp_path := []]> (fs w))
     | Some p => p = temp_path
                 /\ exists body, fs w1 = <[temp_path := body]> (<[temp_path := []]> (fs w))
     end.
Proof.
  cbn zeta. unfold stage_and_scan.
  destruct (String.eqb (storage_type cfg) "s3") eqn:Hs3.
  - apply String.eqb_eq in Hs3.
    unfold S3Storage.download_file_to_temp, S3Storage.mkstemp.
    destruct w as [t up rd files fault bk cu cn sl cl]. cbn.
    destruct fault as [e|]; cbn.
    + destruct (S3Storage.is_ClientError e); cbn; auto.
    + destruct (bk !! S3Storage.get_s3_key file_id filename) as [body|]; cbn; [|auto].
      match goal with |- context [ClamAVScanner.scan_file ?p ?w0] =>
        pose proof (scan_file_fs p w0) as Hfs;
        pose proof (scan_file_bucket p w0) as Hbk;
        destruct (ClamAVScanner.scan_file p w0) as [o w2] end.
      cbn in *. split; [exact Hbk|]. split; [reflexivity|]. eauto.
  - destruct (negb _); cbn; [auto|].
    pose proof (scan_file_fs (LocalStorage.get_file_path cfg file_id filename) w) as Hfs.
    pose proof (scan_file_bucket (LocalStorage.get_file_path cfg file_id filename) w) as Hbk.
    destruct (ClamAVScanner.scan_file _ w) as [o w2]. cbn in *. auto.
Qed.

(** X15.  A scan task never alters what is stored: the bucket is as before,
    every file that existed before still exists with the same content, also
    when the outcome is infected, and on local storage the file system as a
    whole is unchanged. *)
Theorem scan_task_keeps_stored_bytes
    (cfg : Settings) (file_id filename : string) (w : World) :
  let w' := snd (scan_file_for_viruses cfg file_id filename w) in
  bucket w' = bucket w
  /\ (forall p content, fs w !! p = Some content -> fs w' !! p = Some content)
  /\ (storage_type cfg <> "s3" -> fs w' = fs w).
Proof.
  cbn zeta. unfold scan_file_for_viruses.
  pose proof (stage_and_scan_files cfg file_id filename
                (update_state file_id "SCANNING" w)) as H.
  cbn zeta in H.
  replace (fs (update_state file_id "SCANNING" w)) with (fs w) in H by (by destruct w).
  replace (bucket (update_state file_id "SCANNING" w)) with (bucket w) in H
    by (by destruct w).
  destruct (stage_and_scan cfg file_id filename (update_state file_id "SCANNING" w))
    as [[outcome temp] w1].
  cbn [fst snd] in *. destruct H as [Hbk Hfs].
  pose proof (fresh_string_fresh (fs w) "/tmp/tmp") as Hfresh.
  destruct temp as [p|]; cbn [cleanup].
  - destruct Hfs as [-> [body Hfs]].
    unfold path_exists. rewrite Hfs.
    rewrite bool_decide_true by (rewrite lookup_insert_eq; eauto).
    replace (bucket (set_fs _ w1)) with (bucket w1) by (by destruct w1).
    replace (fs (set_fs (delete (fresh_string "/tmp/tmp" (fs w))
                           (<[fresh_string "/tmp/tmp" (fs w):=body]>
                              (<[fresh_string "/tmp/tmp" (fs w):=[]]> (fs w)))) w1))
      with (delete (fresh_string "/tmp/tmp" (fs w))
                           (<[fresh_string "/tmp/tmp" (fs w):=body]>
                              (<[fresh_string "/tmp/tmp" (fs w):=[]]> (fs w))))
      by (by destruct w1).
    rewrite !delete_insert_eq, (delete_id _ _ Hfresh).
    split; [exact Hbk|]. split; [trivial|reflexivity].
  - split; [exact Hbk|]. destruct Hfs as [-> | [Hs3 ->]].
    + split; [trivial|reflexivity].
    + split; [|congruence].
      intros p content Hp. rewrite lookup_insert_ne; [exact Hp|].
      intros <-. congruence.
Qed.

Lemma scan_task_keeps_stored_bytes_witness :
  fs (snd (scan_file_for_viruses settings "f1" "note.txt"
             (note_world PENDING (replying_clamd eicar_reply))))
    !! "uploads/f1.txt" = Some (uf_content note_txt).
Proof.
  destruct (scan_task_keeps_stored_bytes settings "f1" "note.txt"
              (note_world PENDING (replying_clamd eicar_reply))) as (_ & H & _).
  apply H. vm_compute. reflexivity.
Defined.

Lemma connect_needs_ping (w : World) :
  cd_ping (clamd_unix w) <> Returns true ->
  cd_ping (clamd_net w) <> Returns true ->
  exists e, ClamAVScanner.connect w = Raises e.
Proof.
  intros Hu Hn. unfold ClamAVScanner.connect.
  destruct (path_exists _ _).
  - destruct (cd_ping (clamd_unix w)) as [e|[|]]; [eauto | congruence | eauto].
  - destruct (cd_ping (clamd_net w)) as [e|[|]]; [eauto | congruence | eauto].
Qed.

Lemma scan_file_log path (w : World) :
  let w' := snd (ClamAVScanner.scan_file path w) in
  clamd_unix w' = clamd_unix w /\ clamd_net w' = clamd_net w
  /\ (scan_log w' = scan_log w \/ scan_log w' = path :: scan_log w)
  /\ ((exists e, ClamAVScanner.connect w = Raises e) ->
      (exists e, fst (ClamAVScanner.scan_file path w) = Raises e)
      /\ scan_log w' = scan_log w /\ utcnow w' = utcnow w).
Proof.
  cbn zeta. unfold ClamAVScanner.scan_file.
  destruct (ClamAVScanner.connect w) as [e|cd].
  - cbn. split; [reflexivity|]. split; [reflexivity|]. split; [by left|].
    intros _. split; [eauto|]. split; reflexivity.
  - assert (Hno : (exists e : exn, Returns cd = Raises e) ->
                  forall P : Prop, P) by (intros [e He]; discriminate).
    destruct (cd_version cd).
    { cbn. split; [reflexivity|]. split; [reflexivity|]. split; [by left|].
      intros Hdead. by apply Hno. }
    destruct (cd_scan_file cd path).
    { destruct w; cbn. split; [reflexivity|]. split; [reflexivity|]. split; [by right|].
      intros Hdead. by apply Hno. }
    destruct (ClamAVScanner.parse_results _ _);
      destruct w; cbn; (split; [reflexivity|]); (split; [reflexivity|]);
      (split; [by right|]); intros Hdead; by apply Hno.
Qed.

(** X16.  One invocation of the scan task submits at most one path to the
    daemon.  When neither endpoint answers the liveness probe with [True],
    nothing is submitted, no scan time passes and the outcome is an error;
    the same holds on local storage when the file is not in storage, with
    the message saying so. *)
Theorem scan_needs_file_and_daemon
    (cfg : Settings) (file_id filename : string) (w : World) :
  let r := fst (scan_file_for_viruses cfg file_id filename w) in
  let w' := snd (scan_file_for_viruses cfg file_id filename w) in
  (scan_log w' = scan_log w \/ exists path, scan_log w' = path :: scan_log w)
  /\ (cd_ping (clamd_unix w) <> Returns true ->
      cd_ping (clamd_net w) <> Returns true ->
      vr_status r = ERROR /\ scan_log w' = scan_log w /\ utcnow w' = utcnow w)
  /\ (storage_type cfg <> "s3" ->
      fs w !! LocalStorage.get_file_path cfg file_id filename = None ->
      vr_status r = ERROR
      /\ vr_error_message r = Some "File not found in local storage"
      /\ scan_log w' = scan_log w).
Proof.
  cbn zeta. unfold scan_file_for_viruses, stage_and_scan.
  destruct (String.eqb (storage_type cfg) "s3") eqn:Hs3.
  - unfold S3Storage.download_file_to_temp, S3Storage.mkstemp.
    destruct w as [t up rd files fault bk cu cn sl cl]. cbn.
    assert (Hs3' : ~ storage_type cfg <> "s3")
      by (apply String.eqb_eq in Hs3; intros H; by apply H).
    destruct fault as [e|]; cbn.
    + destruct (S3Storage.is_ClientError e); cbn;
        (split; [by left|]);
        (split; [intros _ _; repeat split | intros Habs; by destruct Hs3']).
    + destruct (bk !! S3Storage.get_s3_key file_id filename) as [body|]; cbn;
        [|split; [by left|];
          split; [intros _ _; repeat split | intros Habs; by destruct Hs3']].
      match goal with |- context [ClamAVScanner.scan_file ?p ?w0] =>
        pose proof (scan_file_log p w0) as Hlog;
        pose proof (connect_needs_ping w0) as Hping;
        destruct (ClamAVScanner.scan_file p w0) as [o w2] end.
      cbn in *. destruct Hlog as (_ & _ & Hl & Hdead).
      split.
      { destruct Hl as [Hl | Hl]; unfold cleanup; destruct (path_exists _ _);
          destruct w2; cbn in *; eauto. }
      split; [|intros Habs; by destruct Hs3'].
      intros Hu Hn. destruct (Hdead (Hping Hu Hn)) as ([e He] & Hl' & Ht).
      subst o. unfold cleanup. destruct (path_exists _ _); destruct w2; cbn in *; auto.
  - destruct (negb (path_exists _ _)) eqn:Hex.
    + destruct w; cbn. split; [by left|]. split; [intros _ _; repeat split|].
      intros _ _. repeat split.
    + pose proof (scan_file_log (LocalStorage.get_file_path cfg file_id filename)
                    (update_state file_id "SCANNING" w)) as Hlog.
      pose proof (connect_needs_ping (update_state file_id "SCANNING" w)) as Hping.
      destruct (ClamAVScanner.scan_file _ _) as [o w2].
      cbn [fst snd cleanup] in *. destruct Hlog as (_ & _ & Hl & Hdead).
      replace (scan_log (update_state file_id "SCANNING" w)) with (scan_log w) in *
        by (by destruct w).
      split; [destruct Hl; eauto|]. split.
      * intros Hu Hn.
        destruct Hdead as ([e He] & Hl' & Ht);
          [apply Hping; by destruct w|].
        subst o. cbn. repeat split; [exact Hl' | by destruct w].
      * intros _ Hnone. apply path_exists_false in Hnone.
        replace (fs (update_state file_id "SCANNING" w)) with (fs w) in Hex
          by (by destruct w).
        rewrite Hnone in Hex. discriminate.
Qed.

Lemma scan_needs_file_and_daemon_witness :
  vr_status (fst (scan_file_for_viruses settings "f1" "note.txt"
                    (note_world PENDING dead_clamd))) = ERROR
  /\ scan_log (snd (scan_file_for_viruses settings "f1" "note.txt"
                      (note_world PENDING dead_clamd))) = [].
Proof.
  destruct (scan_needs_file_and_daemon settings "f1" "note.txt"
              (note_world PENDING dead_clamd)) as (_ & H & _).
  destruct H as (Hs & Hl & _); [discriminate | discriminate |].
  split; [exact Hs | exact Hl].
Defined.

(** ** Storage backends: what is stored can be found, fetched and removed *)

(** X17.  On local storage a file saved under a free target is then reported
    as existing, with the size of its content and its path as download
    path; saving the same identity and extension again raises
    [FileExistsError] and changes nothing; deleting it reports [True] and
    leaves the file system exactly as it was before the save. *)
Theorem local_storage_round_trip
    (cfg : Settings) (file : UploadFile) (file_id : string) (w : World) :
  let path := LocalStorage.get_file_path cfg file_id (uf_filename file) in
  fs w !! path = None ->
  let w1 := snd (LocalStorage.save_file cfg file file_id w) in
  fst (LocalStorage.save_file cfg file file_id w) = Returns path
  /\ LocalStorage.file_exists cfg file_id (uf_filename file) w1 = true
  /\ LocalStorageRest.get_file_size cfg file_id (uf_filename file) w1
     = Some (Z.of_nat (length (uf_content file)))
  /\ LocalStorage.get_download_path cfg file_id (uf_filename file) w1 = Some path
  /\ (forall p, p <> path -> fs w1 !! p = fs w !! p)
  /\ (exists msg, LocalStorage.save_file cfg file file_id w1
                  = (Raises (Exn FileExistsError msg), w1))
  /\ fst (LocalStorage.delete_file cfg file_id (uf_filename file) w1) = true
  /\ fs (snd (LocalStorage.delete_file cfg file_id (uf_filename file) w1)) = fs w.
Proof.
  intros path Hfree w1.
  assert (Hw1 : LocalStorage.save_file cfg file file_id w
                = (Returns path, set_fs (<[path := uf_content file]> (fs w)) w)).
  { unfold LocalStorage.save_file.
    fold (LocalStorage.get_file_path cfg file_id (uf_filename file)). fold path.
    apply path_exists_false in Hfree. by rewrite Hfree. }
  assert (Hfs : fs w1 = <[path := uf_content file]> (fs w))
    by (unfold w1; rewrite Hw1; by destruct w).
  assert (Hlook : fs w1 !! path = Some (uf_content file))
    by (rewrite Hfs; apply lookup_insert_eq).
  assert (Hex : path_exists path (fs w1) = true)
    by (apply path_exists_true; rewrite Hlook; eauto).
  split; [by rewrite Hw1|].
  split; [exact Hex|].
  split; [unfold LocalStorageRest.get_file_size; fold path;
          unfold bytes in *; by rewrite Hlook|].
  split; [unfold LocalStorage.get_download_path; fold path; by rewrite Hex|].
  split; [intros p Hne; rewrite Hfs; by apply lookup_insert_ne|].
  split; [by apply local_put_rejects_existing|].
  unfold LocalStorage.delete_file. fold path. rewrite Hex. cbn [fst snd].
  split; [reflexivity|].
  replace (fs (set_fs (delete path (fs w1)) w1)) with (delete path (fs w1))
    by (by destruct w1).
  rewrite Hfs. by apply delete_insert_id.
Qed.

Lemma local_storage_round_trip_witness :
  LocalStorage.file_exists settings "f2" "note.txt"
    (snd (LocalStorage.save_file settings note_txt "f2" (note_world CLEAN quiet_clamd)))
  = true.
Proof.
  destruct (local_storage_round_trip settings note_txt "f2"
              (note_world CLEAN quiet_clamd)) as (_ & H & _);
    [vm_compute; reflexivity | exact H].
Defined.

(** X18.  On S3 without faults a saved file is then reported as existing
    with the size of its content, and fetching it to a local scratch file
    returns a path that was not in use before and now holds exactly the
    stored content, with every other local file and the bucket unchanged. *)
Theorem s3_put_then_fetch
    (cfg : Settings) (file : UploadFile) (file_id : string) (w : World) :
  s3_fault w = None ->
  let w1 := snd (S3Storage.save_file cfg file file_id w) in
  let w2 := snd (S3Storage.download_file_to_temp file_id (uf_filename file) w1) in
  S3Storage.file_exists file_id (uf_filename file) w1 = Returns true
  /\ S3StorageRest.get_file_size file_id (uf_filename file) w1
     = Returns (Some (Z.of_nat (length (uf_content file))))
  /\ exists temp_path,
       fst (S3Storage.download_file_to_temp file_id (uf_filename file) w1)
       = Returns (Some temp_path)
       /\ fs w !! temp_path = None
       /\ fs w2 !! temp_path = Some (uf_content file)
       /\ (forall p, p <> temp_path -> fs w2 !! p = fs w !! p)
       /\ bucket w2 = bucket w1.
Proof.
  intros Hf w1 w2.
  assert (Hw1 : w1 = set_bucket (<[S3Storage.get_s3_key file_id (uf_filename file)
                                    := uf_content file]> (bucket w)) w).
  { unfold w1, S3Storage.save_file. by rewrite Hf. }
  assert (Hlook : bucket w1 !! S3Storage.get_s3_key file_id (uf_filename file)
                  = Some (uf_content file))
    by (rewrite Hw1; destruct w; apply lookup_insert_eq).
  assert (Hf1 : s3_fault w1 = None) by (rewrite Hw1; by destruct w).
  assert (Hfs1 : fs w1 = fs w) by (rewrite Hw1; by destruct w).
  split; [unfold S3Storage.file_exists; unfold bytes in *; rewrite Hf1, Hlook;
          by rewrite bool_decide_true by eauto|].
  split; [unfold S3StorageRest.get_file_size; unfold bytes in *;
          by rewrite Hf1, Hlook|].
  exists (fresh_string "/tmp/tmp" (fs w)).
  assert (Hrun : S3Storage.download_file_to_temp file_id (uf_filename file) w1
                 = (Returns (Some (fresh_string "/tmp/tmp" (fs w))),
                    set_fs (<[fresh_string "/tmp/tmp" (fs w) := uf_content file]>
                              (<[fresh_string "/tmp/tmp" (fs w) := []]> (fs w))) w1)).
  { unfold S3Storage.download_file_to_temp, S3Storage.mkstemp. rewrite Hfs1.
    destruct w1; cbn in *. unfold bytes in *. by rewrite Hf1, Hlook. }
  unfold w2. rewrite Hrun. cbn [fst snd].
  split; [reflexivity|]. split; [apply fresh_string_fresh|].
  replace (fs (set_fs _ w1))
    with (<[fresh_string "/tmp/tmp" (fs w) := uf_content file]>
            (<[fresh_string "/tmp/tmp" (fs w) := []]> (fs w))) by (by destruct w1).
  split; [apply lookup_insert_eq|].
  split; [intros p Hne; by rewrite !lookup_insert_ne|].
  by destruct w1.
Qed.

Lemma s3_put_then_fetch_witness :
  exists temp_path,
    fst (S3Storage.download_file_to_temp "f1" "note.txt"
           (snd (S3Storage.save_file s3_settings note_txt "f1" empty_s3_world)))
    = Returns (Some temp_path)
    /\ fs (snd (S3Storage.download_file_to_temp "f1" "note.txt"
                  (snd (S3Storage.save_file s3_settings note_txt "f1" empty_s3_world))))
         !! temp_path = Some (uf_content note_txt).
Proof.
  destruct (s3_put_then_fetch s3_settings note_txt "f1" empty_s3_world eq_refl)
    as (_ & _ & temp_path & H & _ & Hc & _).
  exists temp_path. split; [exact H | exact Hc].
Defined.

(** X19.  On Azure without faults a file saved under a free blob name is
    then reported as existing with the size of its content, fetching it
    yields a scratch file under a name not in use before that holds the
    stored content, and deleting it reports [True] and leaves the container
    as it was before the save. *)
Theorem azure_round_trip
    (cfg : Settings) (file : UploadFile) (file_id : string)
    (c : AzureStorage.Container) (files : gmap string bytes) :
  let name := AzureStorage.get_blob_name file_id (uf_filename file) in
  AzureStorage.azure_fault c = None ->
  AzureStorage.blobs c !! name = None ->
  let c1 := snd (AzureStorage.save_file cfg file file_id c) in
  fst (AzureStorage.save_file cfg file file_id c)
  = Returns ("azure://" ++ azure_container_name cfg ++ "/" ++ name)
  /\ AzureStorageRest.file_exists file_id (uf_filename file) c1 = true
  /\ AzureStorageRest.get_file_size file_id (uf_filename file) c1
     = Some (Z.of_nat (length (uf_content file)))
  /\ (exists temp_path,
        files !! temp_path = None
        /\ AzureStorageRest.download_file_to_temp file_id (uf_filename file) c1 files
           = (Some temp_path,
              <[temp_path := uf_content file]> (<[temp_path := []]> files)))
  /\ fst (AzureStorage.delete_file file_id (uf_filename file) c1) = true
  /\ AzureStorage.blobs (snd (AzureStorage.delete_file file_id (uf_filename file) c1))
     = AzureStorage.blobs c.
Proof.
  intros name Hf Hfree c1.
  assert (Hc1 : AzureStorage.save_file cfg file file_id c
                = (Returns ("azure://" ++ azure_container_name cfg ++ "/" ++ name),
                   {| AzureStorage.azure_fault := None;
                      AzureStorage.blobs := <[name := uf_content file]>
                                              (AzureStorage.blobs c) |})).
  { unfold AzureStorage.save_file. rewrite Hf.
    fold (AzureStorage.get_blob_name file_id (uf_filename file)). fold name.
    rewrite bool_decide_false; [reflexivity|].
    rewrite Hfree. by intros [x Hx]. }
  unfold c1. rewrite Hc1. cbn [fst snd].
  split; [reflexivity|].
  unfold AzureStorageRest.file_exists, AzureStorageRest.get_file_size,
    AzureStorageRest.download_file_to_temp, AzureStorage.delete_file.
  fold name. cbn. unfold bytes in *. rewrite !lookup_insert_eq.
  split; [by rewrite bool_decide_true by eauto|].
  split; [reflexivity|].
  split; [exists (fresh_string "/tmp/tmp" files);
          split; [apply fresh_string_fresh | reflexivity]|].
  rewrite bool_decide_true by eauto. cbn.
  split; [reflexivity | by apply delete_insert_id].
Qed.

Lemma azure_round_trip_witness :
  AzureStorageRest.file_exists "f1" "note.txt"
    (snd (AzureStorage.save_file settings note_txt "f1"
            {| AzureStorage.azure_fault := None; AzureStorage.blobs := ∅ |}))
  = true.
Proof.
  destruct (azure_round_trip settings note_txt "f1"
              {| AzureStorage.azure_fault := None; AzureStorage.blobs := ∅ |} ∅
              eq_refl (lookup_empty _)) as (_ & H & _).
  exact H.
Defined.

(** X20.  Azure's two scratch-file helpers at their edges: fetching a blob
    that does not exist answers [None] yet leaves the empty scratch file it
    created; copying from a scratch file replaces a blob that already
    exists, and with the scratch file missing it raises and leaves the
    container alone. *)
Theorem azure_scratch_edges
    (cfg : Settings) (temp_path file_id filename : string)
    (c : AzureStorage.Container) (files : gmap string bytes) :
  let name := AzureStorage.get_blob_name file_id filename in
  AzureStorage.azure_fault c = None ->
  (AzureStorage.blobs c !! name = None ->
   exists scratch,
     files !! scratch = None
     /\ AzureStorageRest.download_file_to_temp file_id filename c files
        = (None, <[scratch := []]> files))
  /\ (forall content,
        files !! temp_path = Some content ->
        let r := AzureStorageRest.copy_file_from_temp cfg temp_path file_id filename
                   c files in
        fst r = Returns ("azure://" ++ azure_container_name cfg ++ "/" ++ name)
        /\ AzureStorage.blobs (snd r) !! name = Some content
        /\ forall other, other <> name ->
             AzureStorage.blobs (snd r) !! other = AzureStorage.blobs c !! other)
  /\ (files !! temp_path = None ->
      exists msg,
        AzureStorageRest.copy_file_from_temp cfg temp_path file_id filename c files
        = (Raises (Exn Exception msg), c)).
Proof.
  intros name Hf. split; [|split].
  - intros Hnone. exists (fresh_string "/tmp/tmp" files).
    split; [apply fresh_string_fresh|].
    unfold AzureStorageRest.download_file_to_temp. fold name. by rewrite Hf, Hnone.
  - intros content Htemp. cbn zeta.
    unfold AzureStorageRest.copy_file_from_temp. rewrite Htemp, Hf. cbn.
    fold (AzureStorage.get_blob_name file_id filename). fold name.
    split; [reflexivity|]. split; [apply lookup_insert_eq|].
    intros other Hne. by apply lookup_insert_ne.
  - intros Htemp. unfold AzureStorageRest.copy_file_from_temp. rewrite Htemp. eauto.
Qed.

Lemma azure_scratch_edges_witness :
  exists scratch,
    AzureStorageRest.download_file_to_temp "f1" "note.txt"
      {| AzureStorage.azure_fault := None; AzureStorage.blobs := ∅ |} ∅
    = (None, <[scratch := []]> ∅).
Proof.
  destruct (azure_scratch_edges settings "/tmp/x" "f1" "note.txt"
              {| AzureStorage.azure_fault := None; AzureStorage.blobs := ∅ |} ∅ eq_refl)
    as (H & _).
  destruct (H (lookup_empty _)) as (scratch & _ & Hrun).
  exists scratch. exact Hrun.
Defined.

(** ** Azure connection strings *)

Lemma split_app_sep (sep : ascii) (p rest : string) :
  Str.mem sep p = false ->
  Str.split sep (p ++ String sep rest) = p :: Str.split sep rest.
Proof.
  induction p as [|c r IH]; intros H.
  - rewrite append_nil. cbn [Str.split]. by rewrite Ascii.eqb_refl.
  - rewrite append_cons. cbn [Str.split Str.mem] in *.
    apply orb_false_iff in H as [Hc Hr]. by rewrite Hc, (IH Hr).
Qed.

Lemma split_concat (sep : ascii) (parts : list string) :
  parts <> [] ->
  Forall (fun p => Str.mem sep p = false) parts ->
  Str.split sep (String.concat (String sep "") parts) = parts.
Proof.
  induction parts as [|x [|y l] IH]; intros Hne Hall; [congruence| |].
  - cbn. apply split_no_sep. by inversion Hall.
  - inversion Hall as [|? ? Hx Hrest]; subst.
    change (String.concat (String sep "") (x :: y :: l))
      with (x ++ String sep "" ++ String.concat (String sep "") (y :: l)).
    rewrite append_cons, append_nil, split_app_sep by exact Hx.
    f_equal. apply IH; [discriminate | exact Hrest].
Qed.

Lemma startswith_field (key k v : string) :
  Str.mem "=" key = false -> Str.mem "=" k = false ->
  AzureStorageRest.startswith (key ++ "=") (k ++ "=" ++ v) = String.eqb k key.
Proof.
  revert k. induction key as [|a p IH]; intros k Hkey Hk.
  - rewrite append_nil. destruct k as [|b r].
    + rewrite append_nil, append_cons. reflexivity.
    + rewrite append_cons. cbn [Str.mem] in Hk.
      apply orb_false_iff in Hk as [Hb _].
      cbn [AzureStorageRest.startswith]. by rewrite Hb.
  - rewrite append_cons. cbn [Str.mem] in Hkey.
    apply orb_false_iff in Hkey as [Ha Hp]. destruct k as [|b r].
    + rewrite append_nil, append_cons. cbn [AzureStorageRest.startswith].
      rewrite Ascii.eqb_sym, Ha. reflexivity.
    + rewrite append_cons. cbn [Str.mem] in Hk.
      apply orb_false_iff in Hk as [_ Hr].
      cbn [AzureStorageRest.startswith String.eqb]. by rewrite (IH r Hp Hr).
Qed.

Lemma after_first_eq_field (k v : string) :
  Str.mem "=" k = false ->
  AzureStorageRest.after_first_eq (k ++ "=" ++ v) = Some v.
Proof.
  induction k as [|b r IH]; intros Hk.
  - rewrite append_nil, append_cons, append_nil. reflexivity.
  - rewrite append_cons. cbn [Str.mem] in Hk.
    apply orb_false_iff in Hk as [Hb Hr].
    cbn [AzureStorageRest.after_first_eq]. rewrite Hb. by apply IH.
Qed.

Lemma extract_field_spec (key missing : string) (fields : list (string * string)) :
  Str.mem "=" key = false -> key <> "" ->
  Forall well_formed_field fields ->
  AzureStorageRest.extract_field (key ++ "=") missing (connection_string fields)
  = match field_value key fields with
    | Some v => Returns v
    | None => Raises (Exn ValueError missing)
    end.
Proof.
  intros Hkey Hne Hall. unfold AzureStorageRest.extract_field, connection_string.
  destruct fields as [|kv0 rest].
  { cbn. destruct key; [congruence|]. rewrite append_cons. reflexivity. }
  rewrite split_concat.
  - unfold field_value. induction Hall as [|[k v] l (Hk1 & Hk2 & Hv) Hl IH].
    + reflexivity.
    + cbn [map List.find fst snd] in *.
      rewrite startswith_field by assumption.
      destruct (String.eqb k key); [|exact IH].
      cbn. by rewrite after_first_eq_field.
  - discriminate.
  - apply List.Forall_forall. intros part Hin.
    apply in_map_iff in Hin as ([k v] & <- & Hin).
    rewrite List.Forall_forall in Hall. destruct (Hall _ Hin) as (Hk1 & Hk2 & Hv).
    cbn [fst snd] in *. rewrite mem_append, Hk1, append_cons, append_nil. cbn [Str.mem].
    rewrite Hv. reflexivity.
Qed.

(** X21.  On a connection string written as [key=value] fields joined by
    semicolons, the account name and the account key read back are the
    values of the first field called [AccountName] and [AccountKey], taken
    whole even where they contain [=] (as base-64 padding does); if no such
    field is there, [ValueError] is raised. *)
Theorem connection_string_fields (fields : list (string * string)) :
  Forall well_formed_field fields ->
  AzureStorageRest.extract_account_name_from_connection_string (connection_string fields)
  = match field_value "AccountName" fields with
    | Some v => Returns v
    | None => Raises (Exn ValueError "AccountName not found in connection string")
    end
  /\ AzureStorageRest.extract_account_key_from_connection_string (connection_string fields)
     = match field_value "AccountKey" fields with
       | Some v => Returns v
       | None => Raises (Exn ValueError "AccountKey not found in connection string")
       end.
Proof.
  intros Hall. split.
  - apply (extract_field_spec "AccountName"); [reflexivity | discriminate | exact Hall].
  - apply (extract_field_spec "AccountKey"); [reflexivity | discriminate | exact Hall].
Qed.

Lemma connection_string_fields_witness :
  AzureStorageRest.extract_account_key_from_connection_string
    "DefaultEndpointsProtocol=https;AccountName=acct;AccountKey=c2VjcmV0==;EndpointSuffix=core.windows.net"
  = Returns "c2VjcmV0==".
Proof.
  assert (Hall : Forall well_formed_field
                   [("DefaultEndpointsProtocol", "https"); ("AccountName", "acct");
                    ("AccountKey", "c2VjcmV0=="); ("EndpointSuffix", "core.windows.net")])
    by (repeat constructor).
  destruct (connection_string_fields _ Hall) as [_ H]. exact H.
Defined.

(** ** Periodic clean-up of scratch files *)

Lemma fold_visit_lookup (cond : string -> bool) (l : list string)
    (init : gmap string bytes) (p : string) :
  fold_left (fun files q => if cond q then delete q files else files) l init !! p
  = if bool_decide (p ∈ l) && cond p then None else init !! p.
Proof.
  revert init. induction l as [|a l IH]; intros init; [reflexivity|].
  cbn [fold_left]. rewrite IH.
  destruct (decide (p = a)) as [-> | Hne].
  - rewrite (bool_decide_true (a ∈ a :: l)) by apply list_elem_of_here.
    destruct (cond a) eqn:Ha.
    + rewrite lookup_delete_eq. by destruct (bool_decide _).
    + by rewrite !andb_false_r.
  - assert (Hmem : bool_decide (p ∈ a :: l) = bool_decide (p ∈ l)).
    { apply bool_decide_ext. rewrite elem_of_cons.
      split; [intros [Heq | Hin]; [congruence | exact Hin] | intros Hin; by right]. }
    rewrite Hmem. destruct (bool_decide (p ∈ l) && cond p); [reflexivity|].
    destruct (cond a); [by apply lookup_delete_ne | reflexivity].
Qed.

(** X22.  The periodic clean-up removes exactly the entries of the temporary
    directory whose name starts with [tmp] and whose creation lies more than
    an hour back: every such file is gone afterwards, every other file is
    there with its content, and nothing but the file system changes. *)
Theorem cleanup_temp_files_removes_stale
    (temp_dir : string) (ctime : string -> Z) (w : World) (p : string) :
  let w' := cleanup_temp_files temp_dir ctime w in
  fs w' !! p
  = (if tmp_entry temp_dir p && (utcnow w - ctime p >? 3600) then None else fs w !! p)
  /\ redis w' = redis w /\ bucket w' = bucket w /\ utcnow w' = utcnow w.
Proof.
  cbn zeta. unfold cleanup_temp_files.
  split; [|by destruct w].
  replace (fs (set_fs _ w))
    with (fold_left
            (fun files q =>
               if tmp_entry temp_dir q && (utcnow w - ctime q >? 3600)
               then delete q files else files)
            (map fst (map_to_list (fs w))) (fs w)) by (by destruct w).
  rewrite (fold_visit_lookup
             (fun q => tmp_entry temp_dir q && (utcnow w - ctime q >? 3600))).
  destruct (tmp_entry temp_dir p && (utcnow w - ctime p >? 3600));
    [|by rewrite andb_false_r].
  rewrite andb_true_r. destruct (bool_decide _) eqn:E; [reflexivity|].
  apply bool_decide_eq_false in E. apply eq_None_not_Some.
  intros [content Hc]. apply E.
  apply list_elem_of_fmap. exists (p, content). split; [reflexivity|].
  by apply elem_of_map_to_list.
Qed.

(** The scratch file a failed fetch leaves behind, an hour and a second
    later, and a stored upload next to it. *)
Lemma cleanup_temp_files_removes_stale_witness :
  let leaked := snd (scan_file_for_viruses s3_settings "f1" "note.txt" empty_s3_world) in
  let later := set_utcnow 4601 (set_fs (<["uploads/f9.txt" := []]> (fs leaked)) leaked) in
  fs leaked !! "/tmp/tmp" = Some []
  /\ fs (cleanup_temp_files "/tmp" (fun _ => 1000) later) !! "/tmp/tmp" = None
  /\ fs (cleanup_temp_files "/tmp" (fun _ => 1000) later) !! "uploads/f9.txt" = Some [].
Proof.
  cbn zeta. split; [vm_compute; reflexivity|].
  split.
  - destruct (cleanup_temp_files_removes_stale "/tmp" (fun _ => 1000)
                (set_utcnow 4601
                   (set_fs (<["uploads/f9.txt" := []]>
                              (fs (snd (scan_file_for_viruses s3_settings "f1" "note.txt"
                                          empty_s3_world))))
                      (snd (scan_file_for_viruses s3_settings "f1" "note.txt"
                              empty_s3_world)))) "/tmp/tmp") as [H _].
    rewrite H. reflexivity.
  - vm_compute. reflexivity.
Defined.

(** ** More on the scan client and the token *)

(** X23.  A connection is handed out only for a daemon that answered the
    liveness probe with [True], and the endpoint is the Unix socket exactly
    when its path exists.  There is no fallback: with the socket path
    present and the daemon behind it not answering, connecting fails with
    [ConnectionError] even if the network endpoint is alive. *)
Theorem connect_has_no_fallback (w : World) :
  let unix := path_exists ClamAVScanner.clamd_ctl (fs w) in
  (forall cd, ClamAVScanner.connect w = Returns cd ->
     cd_ping cd = Returns true
     /\ cd = (if unix then clamd_unix w else clamd_net w))
  /\ (unix = true -> cd_ping (clamd_unix w) <> Returns true ->
      exists detail,
        ClamAVScanner.connect w
        = Raises (Exn ConnectionError ("Failed to connect to ClamAV: " ++ detail)))
  /\ (unix = false -> cd_ping (clamd_net w) = Returns true ->
      ClamAVScanner.connect w = Returns (clamd_net w)).
Proof.
  cbn zeta. unfold ClamAVScanner.connect.
  destruct (path_exists ClamAVScanner.clamd_ctl (fs w)).
  - split; [|split; [|discriminate]].
    + intros cd. destruct (cd_ping (clamd_unix w)) as [e|[|]] eqn:E; try discriminate.
      intros [= <-]. by split.
    + intros _ H. destruct (cd_ping (clamd_unix w)) as [e|[|]]; [eauto | congruence | eauto].
  - split; [|split; [discriminate|]].
    + intros cd. destruct (cd_ping (clamd_net w)) as [e|[|]] eqn:E; try discriminate.
      intros [= <-]. by split.
    + intros _ H. by rewrite H.
Qed.

Lemma connect_has_no_fallback_witness :
  exists detail,
    ClamAVScanner.connect
      (set_fs {[ ClamAVScanner.clamd_ctl := [] ]} (note_world PENDING quiet_clamd))
    = Raises (Exn ConnectionError ("Failed to connect to ClamAV: " ++ detail)).
Proof.
  destruct (connect_has_no_fallback
              (set_fs {[ ClamAVScanner.clamd_ctl := [] ]} (note_world PENDING quiet_clamd)))
    as (_ & H & _).
  apply H; [vm_compute; reflexivity | discriminate].
Defined.

Section TokenNecessary.
Variable mac : string -> string -> gmap string Jose.jvalue -> string.

End TokenNecessary.


(** ** The download count *)

Section CountProperties.
Variable mac : string -> string -> gmap string Jose.jvalue -> string.

(** X25.  The download count of a record never goes down and moves by at most
    one at a time: the scan task and [update_file_scan_result] leave the
    count of every record as it is, and a download raises at most the count
    of one record, by exactly one. *)
Theorem download_count_never_decreases
    (cfg : Settings) (file_id : string) (n : Z) (w : World) :
  download_count file_id w = Some n ->
  (forall fid filename,
     download_count file_id (snd (scan_file_for_viruses cfg fid filename w)) = Some n)
  /\ (forall fid outcome,
        download_count file_id (snd (update_file_scan_result fid outcome w)) = Some n)
  /\ (forall token,
        download_count file_id (snd (download_file mac cfg token w)) = Some n
        \/ download_count file_id (snd (download_file mac cfg token w)) = Some (n + 1)).
Proof.
  intros Hn. split; [|split].
  - intros. unfold download_count. by rewrite scan_task_keeps_records.
  - intros fid outcome. unfold update_file_scan_result.
    destruct (get_file_metadata fid w) as [m|] eqn:Hm; [|exact Hn].
    apply get_file_metadata_Some in Hm as [Hup Hm].
    unfold save_file_metadata. rewrite Hup. unfold download_count in *.
    destruct w; cbn in *.
    destruct (decide (redis_key fid = redis_key file_id)) as [E|E].
    + rewrite <- E, lookup_insert_eq. rewrite <- E, Hm in Hn. exact Hn.
    + by rewrite lookup_insert_ne.
  - intros token. unfold download_file.
    destruct (verify_download_token mac cfg (utcnow w) token) as [e|[v|]];
      try (by left).
    destruct (negb (truthy v)); [by left|].
    destruct (get_file_metadata (format v) w) as [m|] eqn:Hm; [|by left].
    destruct (ScanStatus_of_value _); [by left|].
    destruct (negb _); [by left|].
    apply get_file_metadata_Some in Hm as [Hup Hm].
    destruct (serve_accounting cfg (format v) m w Hup) as [Hno Hyes].
    destruct (releases_bytes (fst (serve cfg (format v) m w))) eqn:Hrel.
    + rewrite (Hyes eq_refl). unfold download_count in *. destruct w; cbn in *.
      destruct (decide (redis_key (format v) = redis_key file_id)) as [E|E].
      * right. rewrite <- E, lookup_insert_eq. rewrite <- E, Hm in Hn.
        cbn in *. congruence.
      * left. by rewrite lookup_insert_ne.
    + left. by rewrite (Hno eq_refl).
Qed.
End CountProperties.

Lemma download_count_never_decreases_witness :
  download_count "f1"
    (snd (update_file_scan_result "f1" infected_outcome (note_world CLEAN quiet_clamd)))
  = Some 0.
Proof.
  destruct (download_count_never_decreases example_mac settings "f1" 0
              (note_world CLEAN quiet_clamd)) as (_ & H & _);
    [vm_compute; reflexivity | apply H].
Defined.
